(** * lambda-at-home: the Python runtime interface clients

    A shallow embedding of the three Python transports of the repository:

    - [Push]   : [runtimes/python-ric/src/runtime.py], the Flask server
                 with [/health] and [/invoke];
    - [Poll]   : [runtimes/python311/bootstrap.py], the long-poll loop;
    - [Stream] : [service/runtimes/python311/bootstrap-websocket.py], the
                 WebSocket client with reconnection and fallback.

    Python values are a small inductive type, floats are the kernel's
    binary64 floats, effects are a trace of events in a state and exception
    monad, and everything the outside world decides (clock readings, what a
    network call does, what arrives on the socket) is a script handed to the
    embedded function. *)

From Stdlib Require Import ZArith List String Ascii Bool Lia Floats.
Import ListNotations.

Set Warnings "-register-all".

Local Open Scope string_scope.
Local Open Scope list_scope.
Local Open Scope Z_scope.

(** ** Python values *)

Module Py.

(** The values that travel through the transports: what [json.loads]
    produces, plus [bytes], which a handler may return.  A [dict] keeps its
    insertion order; its keys are strings, as in every dict the transports
    build or parse, and are meant to be distinct ([lookup] reads the first
    entry of a key). *)
Inductive pyval : Type :=
| PNone
| PBool (b : bool)
| PInt (z : Z)
| PFloat (f : float)
| PStr (s : string)
| PBytes (bs : list Byte.byte)
| PList (items : list pyval)
| PDict (entries : list (string * pyval)).

(** An exception object: [type(e).__name__], [str(e)] and the formatted
    traceback lines.  The exceptions the transports build themselves carry
    no lines here: their traceback is text of the interpreter. *)
Record exn : Type := Exn {
  exn_type : string;
  exn_msg : string;
  exn_trace : list string
}.

(** What calling the user's handler does. *)
Inductive returned : Type :=
| Return (v : pyval)
| Raise (e : exn).

Definition handler_fn : Type := pyval -> pyval -> returned.

(** [isinstance(v, bytes)] and [isinstance(v, dict)]. *)
Definition is_bytes (v : pyval) : bool :=
  match v with PBytes _ => true | _ => false end.

Definition is_dict (v : pyval) : bool :=
  match v with PDict _ => true | _ => false end.

(** [bool(v)]: the truth value Python gives a value. *)
Definition truthy (v : pyval) : bool :=
  match v with
  | PNone => false
  | PBool b => b
  | PInt z => negb (z =? 0)
  | PFloat f => negb (PrimFloat.eqb f 0%float)
  | PStr s => negb (String.eqb s "")
  | PBytes bs => match bs with [] => false | _ => true end
  | PList l => match l with [] => false | _ => true end
  | PDict d => match d with [] => false | _ => true end
  end.

(** [d.get(k)] on the entries of a dict: the value bound to [k], else
    [None]. *)
Fixpoint lookup (k : string) (d : list (string * pyval)) : pyval :=
  match d with
  | [] => PNone
  | (k', v) :: rest => if String.eqb k k' then v else lookup k rest
  end.

(** The value a dict binds to [k], for reading a field off a value known
    to be a dict. *)
Definition field (k : string) (v : pyval) : pyval :=
  match v with PDict d => lookup k d | _ => PNone end.

(** [v.get(k)]: only a dict has the method. *)
Definition py_get (v : pyval) (k : string) : exn + pyval :=
  match v with
  | PDict d => inr (lookup k d)
  | _ => inl (Exn "AttributeError" "object has no attribute 'get'" [])
  end.

(** [v.get(k, default)]. *)
Definition py_get_default (v : pyval) (k : string) (default : pyval)
  : exn + pyval :=
  match v with
  | PDict d =>
      match find (fun kv => String.eqb k (fst kv)) d with
      | Some kv => inr (snd kv)
      | None => inr default
      end
  | _ => inl (Exn "AttributeError" "object has no attribute 'get'" [])
  end.

(** [str(x)] for a value that is a string or [None] (a header or an
    environment variable that may be missing). *)
Definition str_of (o : option string) : string :=
  match o with Some s => s | None => "None" end.

Definition val_of (o : option string) : pyval :=
  match o with Some s => PStr s | None => PNone end.

(** *** JSON serialisation

    [json.dumps] (and Flask's [jsonify]) raise [TypeError] on a [bytes]
    object anywhere in the value; every other value of [pyval] is
    serialisable.  The document that goes on the wire is the value itself. *)
Fixpoint json_ok (v : pyval) : bool :=
  match v with
  | PBytes _ => false
  | PList l => forallb json_ok l
  | PDict d => forallb (fun kv => json_ok (snd kv)) d
  | _ => true
  end.

Definition not_serializable : exn :=
  Exn "TypeError" "Object of type bytes is not JSON serializable" [].

Definition json_dumps (v : pyval) : exn + pyval :=
  if json_ok v then inr v else inl not_serializable.

(** *** base64 *)

Definition b64_alphabet : list ascii :=
  list_ascii_of_string
    "ABCDEFGHIJKLMNOPQRSTUVWXYZabcdefghijklmnopqrstuvwxyz0123456789+/".

Definition b64_char (n : Z) : ascii :=
  nth (Z.to_nat n) b64_alphabet "="%char.

Definition byte_val (b : Byte.byte) : Z := Z.of_N (Byte.to_N b).

(** [b64encode(bs).decode()]: three bytes give four characters, the last
    group is padded with [=]. *)
Fixpoint b64encode (bs : list Byte.byte) : string :=
  match bs with
  | [] => ""
  | [a] =>
      let n := Z.shiftl (byte_val a) 16 in
      String (b64_char (Z.land (Z.shiftr n 18) 63))
        (String (b64_char (Z.land (Z.shiftr n 12) 63)) "==")
  | [a; b] =>
      let n := Z.lor (Z.shiftl (byte_val a) 16) (Z.shiftl (byte_val b) 8) in
      String (b64_char (Z.land (Z.shiftr n 18) 63))
        (String (b64_char (Z.land (Z.shiftr n 12) 63))
           (String (b64_char (Z.land (Z.shiftr n 6) 63)) "="))
  | a :: b :: c :: rest =>
      let n := Z.lor (Z.lor (Z.shiftl (byte_val a) 16)
                            (Z.shiftl (byte_val b) 8)) (byte_val c) in
      String (b64_char (Z.land (Z.shiftr n 18) 63))
        (String (b64_char (Z.land (Z.shiftr n 12) 63))
           (String (b64_char (Z.land (Z.shiftr n 6) 63))
              (String (b64_char (Z.land n 63)) (b64encode rest))))
  end.

(** *** [int(...)] *)

(** The characters [int] skips around a numeral: ASCII white space, and the
    two Latin-1 code points Unicode counts as white space. *)
Definition is_space (c : ascii) : bool :=
  match nat_of_ascii c with
  | 9%nat | 10%nat | 11%nat | 12%nat | 13%nat | 32%nat
  | 133%nat | 160%nat => true
  | _ => false
  end.

Definition digit_of (c : ascii) : option Z :=
  let n := Z.of_nat (nat_of_ascii c) in
  if (48 <=? n) && (n <=? 57) then Some (n - 48) else None.

Definition is_underscore (c : ascii) : bool :=
  Nat.eqb (nat_of_ascii c) 95.

Fixpoint skip_spaces (l : list ascii) : list ascii :=
  match l with
  | c :: rest => if is_space c then skip_spaces rest else l
  | [] => []
  end.

(** The digits of a numeral: at least one, single underscores between
    digits only; after them nothing but white space. *)
Fixpoint scan_digits (after_digit : bool) (acc : Z) (l : list ascii)
  : option Z :=
  match l with
  | [] => if after_digit then Some acc else None
  | c :: rest =>
      match digit_of c with
      | Some d => scan_digits true (10 * acc + d) rest
      | None =>
          if after_digit then
            if is_underscore c then
              match rest with
              | c' :: _ =>
                  match digit_of c' with
                  | Some _ => scan_digits false acc rest
                  | None => None
                  end
              | [] => None
              end
            else
              match skip_spaces l with [] => Some acc | _ => None end
          else None
      end
  end.

(** [int(s)] for a string, base 10: [None] stands for [ValueError]. *)
Definition int_of_str (s : string) : option Z :=
  match skip_spaces (list_ascii_of_string s) with
  | "+"%char :: rest => scan_digits false 0 rest
  | "-"%char :: rest => option_map Z.opp (scan_digits false 0 rest)
  | l => scan_digits false 0 l
  end.

Definition invalid_literal (s : string) : exn :=
  Exn "ValueError"
      ("invalid literal for int() with base 10: '" ++ s ++ "'")%string [].

(** [int(f)] for a float: truncation towards zero; NaN and the infinities
    raise. *)
Definition int_of_float (f : float) : exn + Z :=
  match Prim2SF f with
  | S754_zero _ => inr 0
  | S754_finite neg m e =>
      let a := Z.shiftl (Z.pos m) e in
      inr (if neg then - a else a)
  | S754_infinity _ =>
      inl (Exn "OverflowError" "cannot convert float infinity to integer" [])
  | S754_nan =>
      inl (Exn "ValueError" "cannot convert float NaN to integer" [])
  end.

(** [min(a, b)] on floats: the first argument unless the second is
    strictly smaller. *)
Definition py_min (a b : float) : float :=
  if PrimFloat.ltb b a then b else a.

(** *** Strings and paths *)

(** [s.split(c)] for a one-character separator: one more piece than there
    are separators, empty pieces included. *)
Fixpoint split_on (c : ascii) (s : string) : list string :=
  match s with
  | EmptyString => [EmptyString]
  | String a rest =>
      if Ascii.eqb a c then EmptyString :: split_on c rest
      else match split_on c rest with
           | piece :: pieces => String a piece :: pieces
           | [] => [String a EmptyString]
           end
  end.

(** The number of occurrences of a character. *)
Fixpoint occurrences (c : ascii) (s : string) : nat :=
  match s with
  | EmptyString => O
  | String a rest =>
      if Ascii.eqb a c then Datatypes.S (occurrences c rest)
      else occurrences c rest
  end.

(** [a, b = parts]. *)
Definition unpack2 (parts : list string) : exn + (string * string) :=
  match parts with
  | [a; b] => inr (a, b)
  | [] | [_] =>
      inl (Exn "ValueError"
               "not enough values to unpack (expected 2, got 1)" [])
  | _ => inl (Exn "ValueError" "too many values to unpack (expected 2)" [])
  end.

Definition starts_with_slash (s : string) : bool :=
  match s with String "/" _ => true | _ => false end.

Fixpoint ends_with_slash (s : string) : bool :=
  match s with
  | EmptyString => false
  | String a EmptyString => Ascii.eqb a "/"
  | String _ rest => ends_with_slash rest
  end.

(** [os.path.join(a, b)] on a POSIX system. *)
Definition path_join (a b : string) : string :=
  if starts_with_slash b then b
  else if String.eqb a "" || ends_with_slash a then (a ++ b)%string
  else (a ++ "/" ++ b)%string.

(** *** Modules *)

(** What a module binds a name to: something callable as a handler, or
    any other object. *)
Inductive attribute : Type :=
| Callable (f : handler_fn)
| Data (v : pyval).

Definition namespace : Type := list (string * attribute).

(** [getattr(module, name)] (also [module.name]). *)
Fixpoint getattr (module_name : string) (ns : namespace) (name : string)
  : exn + attribute :=
  match ns with
  | [] =>
      inl (Exn "AttributeError"
               ("module '" ++ module_name ++ "' has no attribute '"
                  ++ name ++ "'")%string [])
  | (k, a) :: rest =>
      if String.eqb name k then inr a else getattr module_name rest name
  end.

(** [sys.exit(code)]: the exception that ends the process. *)
Definition system_exit : exn := Exn "SystemExit" "1" [].

End Py.

Import Py.

(** ** Effects

    A transport runs in a monad that threads its own mutable state, appends
    to a trace of observable events, and either finishes, raises a Python
    exception, or is left waiting for the outside world when the script of
    what the outside world does has run out. *)

Module Eff.

(** The Runtime API endpoints of the poll transport. *)
Inductive endpoint : Type :=
| NextInvocation
| InvocationResponse (request_id : string)
| InvocationError (request_id : string).

(** A piece of a formatted line: literal text, or a field of an f-string
    left unrendered. *)
Inductive frag : Type :=
| T (s : string)
| N (z : Z)
| F (f : float)
| V (v : pyval).

Inductive event : Type :=
| Stdout (line : list frag)
| Stderr (line : list frag)
| Log (entry : pyval)
| HandlerCall (payload context : pyval)
| Sleep (seconds : float)
| HttpGet (ep : endpoint) (failure : option exn)
| HttpPost (ep : endpoint) (body : pyval) (failure : option exn)
| WsConnect (failure : option exn)
| WsSend (frame : pyval) (failure : option exn)
| WsClose
| Import (module_name : string).

Inductive outcome (A : Type) : Type :=
| Done (a : A)
| Raised (e : exn)
| Pending.

Arguments Done {A} a.
Arguments Raised {A} e.
Arguments Pending {A}.

Definition M (S A : Type) : Type := S -> list event * S * outcome A.

Section Ops.
Context {S : Type}.

Definition ret {A} (a : A) : M S A := fun s => ([], s, Done a).

Definition bind {A B} (m : M S A) (k : A -> M S B) : M S B :=
  fun s =>
    match m s with
    | (t, s', Done a) =>
        match k a s' with (t', s'', r) => (t ++ t', s'', r) end
    | (t, s', Raised e) => (t, s', Raised e)
    | (t, s', Pending) => (t, s', Pending)
    end.

Definition raise {A} (e : exn) : M S A := fun s => ([], s, Raised e).

Definition pending {A} : M S A := fun s => ([], s, Pending).

Definition emit (ev : event) : M S unit := fun s => ([ev], s, Done tt).

Definition get : M S S := fun s => ([], s, Done s).

Definition modify (f : S -> S) : M S unit := fun s => ([], f s, Done tt).

(** A computation of the host language that returns or raises. *)
Definition lift {A} (r : exn + A) : M S A :=
  match r with inl e => raise e | inr a => ret a end.

(** [try: m  except Exception as e: h e]. *)
Definition try_except {A} (m : M S A) (h : exn -> M S A) : M S A :=
  fun s =>
    match m s with
    | (t, s', Raised e) =>
        match h e s' with (t', s'', r) => (t ++ t', s'', r) end
    | r => r
    end.

End Ops.

Definition trace_of {S A} (r : list event * S * outcome A) : list event :=
  fst (fst r).

Definition state_of {S A} (r : list event * S * outcome A) : S :=
  snd (fst r).

Definition outcome_of {S A} (r : list event * S * outcome A) : outcome A :=
  snd r.

(** The handler calls of a trace: payload and context, in order. *)
Definition handler_calls (t : list event) : list (pyval * pyval) :=
  flat_map (fun ev => match ev with
                      | HandlerCall p c => [(p, c)]
                      | _ => []
                      end) t.

(** Whether an event is a request to the Runtime API about the
    invocation [rid]. *)
Definition sent_about (rid : string) (ev : event) : bool :=
  match ev with
  | HttpPost (InvocationResponse r) _ _ => String.eqb r rid
  | HttpPost (InvocationError r) _ _ => String.eqb r rid
  | _ => false
  end.

Definition is_failed_response (rid : string) (ev : event) : bool :=
  match ev with
  | HttpPost (InvocationResponse r) _ (Some _) => String.eqb r rid
  | _ => false
  end.

(** What a trace holds after the first failed post of a response for
    [rid]. *)
Fixpoint after_failed_response (rid : string) (t : list event)
  : option (list event) :=
  match t with
  | [] => None
  | ev :: rest =>
      if is_failed_response rid ev then Some rest
      else after_failed_response rid rest
  end.

(** A trace in which a failed post of the response for [rid] is followed
    by no request about [rid]. *)
Definition dropped_silently (rid : string) (t : list event) : Prop :=
  forall rest,
    after_failed_response rid t = Some rest ->
    existsb (sent_about rid) rest = false.

(** A computation that is never left waiting, and one that always
    finishes with a value. *)
Definition settles {S A} (m : M S A) : Prop :=
  forall s, outcome_of (m s) <> Pending.

Definition answers {S A} (m : M S A) : Prop :=
  forall s, exists a, outcome_of (m s) = Done a.

End Eff.

Import Eff.

Declare Scope eff_scope.
Delimit Scope eff_scope with eff.
Notation "x <- m ;; k" := (bind m (fun x => k))
  (at level 61, m at next level, right associativity) : eff_scope.
Notation "m ;; k" := (bind m (fun _ => k))
  (at level 61, right associativity) : eff_scope.
Local Open Scope eff_scope.

(** ** The push transport: [runtime.py] *)

Module Push.

Record RuntimeInterface : Type := {
  handler : option handler_fn;
  is_shutting_down : bool
}.

(** What Flask hands to the view of a request: the two headers the view
    reads, and what [request.get_json()] does. *)
Record request : Type := {
  x_deadline_ms : option string;
  x_request_id : option string;
  get_json : exn + pyval
}.

(** The readings of [datetime.now().timestamp()] at the four places of
    [invoke] that take one (lines 96, 112, 119 and 147), in seconds. *)
Record clock : Type := {
  at_start : float;
  at_context : float;
  at_completed : float;
  at_failed : float
}.

(** A Flask response: the status line and the JSON document. *)
Record response : Type := {
  status : Z;
  json : pyval
}.

Definition jsonify (v : pyval) (code : Z) : M RuntimeInterface response :=
  doc <- lift (json_dumps v) ;;
  ret {| status := code; json := doc |}.

Definition upper_char (c : ascii) : ascii :=
  let n := nat_of_ascii c in
  if (Nat.leb 97 n && Nat.leb n 122)%bool then ascii_of_nat (n - 32) else c.

Fixpoint upper (s : string) : string :=
  match s with
  | EmptyString => EmptyString
  | String c rest => String (upper_char c) (upper rest)
  end.

(** [self.log]: one structured record; the keyword arguments come after
    the fixed fields.  The [timestamp] field, a formatted reading of the
    wall clock, is left out of the record. *)
Definition log (level message : string) (kwargs : list (string * pyval))
  : M RuntimeInterface unit :=
  emit (Log (PDict ([("level", PStr (upper level));
                     ("message", PStr message)] ++ kwargs))).

Definition get_stack_trace (error : exn) : pyval :=
  PList (map PStr (exn_trace error)).

Definition error_record (e : exn) : pyval :=
  PDict [("type", PStr (exn_type e));
         ("message", PStr (exn_msg e));
         ("stack", get_stack_trace e)].

(** [self.handler(event, context)]. *)
Definition call_handler (h : option handler_fn) (event context : pyval)
  : M RuntimeInterface pyval :=
  match h with
  | None => raise (Exn "TypeError" "'NoneType' object is not callable" [])
  | Some f =>
      emit (HandlerCall event context) ;;
      match f event context with
      | Return v => ret v
      | Raise e => raise e
      end
  end.

Definition envelope (code : Z) (body : pyval) : pyval :=
  PDict [("status_code", PInt code); ("body", body); ("logs", PList [])].

(** [int(request.headers.get('x-deadline-ms', 0))]. *)
Definition read_deadline (h : option string) : exn + Z :=
  match h with
  | None => inr 0
  | Some s =>
      match int_of_str s with
      | Some z => inr z
      | None => inl (invalid_literal s)
      end
  end.

(** [int((datetime.now().timestamp() * 1000) - start_time)]. *)
Definition elapsed_ms (now start_time : float) : exn + Z :=
  int_of_float (now * 1000 - start_time)%float.

(** The three [return] statements that follow a handler call, lines 124
    to 144. *)
Definition respond_binary (bs : list Byte.byte) : M RuntimeInterface response :=
  jsonify (envelope 200 (PDict [("base64", PBool true);
                                ("data", PStr (b64encode bs))])) 200.

Definition respond_marked (result : pyval) : M RuntimeInterface response :=
  jsonify (envelope 200 result) 200.

Definition respond_default (result : pyval) : M RuntimeInterface response :=
  jsonify (envelope 200 result) 200.

Definition has_base64_marker (result : pyval) : bool :=
  match result with
  | PDict d => truthy (lookup "base64" d)
  | _ => false
  end.

Definition classify (result : pyval) : M RuntimeInterface response :=
  match result with
  | PBytes bs => respond_binary bs
  | _ =>
      if has_base64_marker result then respond_marked result
      else respond_default result
  end.

Definition unavailable : pyval :=
  envelope 503 (PDict [("errorMessage", PStr "Service is shutting down");
                       ("errorType", PStr "ServiceUnavailable")]).

Definition failure_body (e : exn) : pyval :=
  PDict [("errorMessage", PStr (exn_msg e));
         ("errorType", PStr (exn_type e));
         ("stackTrace", get_stack_trace e)].

(** The context handed to the handler, line 111. *)
Definition make_context (deadline_ms : Z) (request_id : string)
                        (now start_time : float) : M RuntimeInterface pyval :=
  remaining <- (if 0 <? deadline_ms
                then elapsed <- lift (elapsed_ms now start_time) ;;
                     ret (deadline_ms - elapsed)
                else ret 0) ;;
  ret (PDict [("deadlineMs", PInt remaining);
              ("requestId", PStr request_id)]).

(** [request.headers.get('x-request-id', 'unknown')]. *)
Definition request_id_of (req : request) : string :=
  match x_request_id req with Some s => s | None => "unknown" end.

(** The view of [POST /invoke].  [Done r] is the response the view
    returns; [Raised e] is an exception that leaves the view, which Flask
    answers on its own, without the envelope. *)
Definition invoke (clk : clock) (req : request) : M RuntimeInterface response :=
  self <- get ;;
  if is_shutting_down self then jsonify unavailable 503
  else
    let start_time := (at_start clk * 1000)%float in
    deadline_ms <- lift (read_deadline (x_deadline_ms req)) ;;
    let request_id := request_id_of req in
    log "info" "Function execution started"
        [("requestId", PStr request_id); ("deadlineMs", PInt deadline_ms)] ;;
    try_except
      (event <- lift (get_json req) ;;
       context <- make_context deadline_ms request_id
                               (at_context clk) start_time ;;
       result <- call_handler (handler self) event context ;;
       execution_time <- lift (elapsed_ms (at_completed clk) start_time) ;;
       log "info" "Function execution completed successfully"
           [("requestId", PStr request_id);
            ("executionTimeMs", PInt execution_time)] ;;
       classify result)
      (fun e =>
         execution_time <- lift (elapsed_ms (at_failed clk) start_time) ;;
         log "error" "Function execution failed"
             [("requestId", PStr request_id);
              ("executionTimeMs", PInt execution_time);
              ("error", error_record e)] ;;
         jsonify (envelope 500 (failure_body e)) 500).

(** The view of [GET /health]. *)
Definition health : M RuntimeInterface response :=
  jsonify (PDict [("status", PStr "ok")]) 200.

(** The handler of SIGTERM and SIGINT. *)
Definition handle_shutdown : M RuntimeInterface unit :=
  log "info" "Container termination signal received" [] ;;
  modify (fun self => {| handler := handler self; is_shutting_down := true |}).

(** What can happen to a running server, and the object after a sequence
    of such happenings.  An exception that escapes a view ends that
    request only. *)
Inductive call : Type :=
| Health
| Invoke (clk : clock) (req : request)
| Signal.

Definition serve_one (c : call) (self : RuntimeInterface) : RuntimeInterface :=
  match c with
  | Health => state_of (health self)
  | Invoke clk req => state_of (invoke clk req self)
  | Signal => state_of (handle_shutdown self)
  end.

Definition serve (calls : list call) (self : RuntimeInterface)
  : RuntimeInterface :=
  fold_left (fun s c => serve_one c s) calls self.

(** The handler of the tests: it returns its input. *)
Definition echo : handler_fn := fun event _ => Return event.

(** The shape of a request that gets as far as the handler: the server is
    not shutting down, handler [f] is loaded, the deadline header (if any)
    reads as the integer [D], and the body parses as [event]. *)
Definition reaches_handler (self : RuntimeInterface) (req : request)
                           (f : handler_fn) (D : Z) (event : pyval) : Prop :=
  is_shutting_down self = false
  /\ handler self = Some f
  /\ read_deadline (x_deadline_ms req) = inr D
  /\ get_json req = inr event.

(** The clock readings a successful request with deadline [D] converts to
    whole milliseconds are finite numbers. *)
Definition clock_readable (clk : clock) (D : Z) : Prop :=
  (0 < D -> exists E,
      elapsed_ms (at_context clk) (at_start clk * 1000)%float = inr E)
  /\ exists ms,
      elapsed_ms (at_completed clk) (at_start clk * 1000)%float = inr ms.

(** The [deadlineMs] of the contexts the handler was called with. *)
Definition deadlines_seen (t : list event) : list pyval :=
  map (fun pc => field "deadlineMs" (snd pc)) (handler_calls t).

(** What the import machinery does for [init]: whether
    [spec_from_file_location] gives a spec with a loader for a module name
    and a path, and what executing the module found there brings. *)
Record importer : Type := {
  has_loader : string -> string -> bool;
  exec_module : string -> string -> exn + namespace
}.

(** [init], for the value of the [HANDLER] variable and the working
    directory.  The [except] block ends in [sys.exit(1)].  (When the
    attribute found is not callable the process exits with the attribute
    stored in [self.handler]; the embedding leaves the field as it
    was.) *)
Definition init (HANDLER : option string) (cwd : string) (imp : importer)
  : M RuntimeInterface bool :=
  try_except
    (let handler_string :=
       match HANDLER with Some s => s | None => "index.handler" end in
     log "info" "RIC initialization started"
         [("handler", PStr handler_string)] ;;
     names <- lift (unpack2 (split_on "." handler_string)) ;;
     let module_name := fst names in
     let function_name := snd names in
     let module_path := path_join cwd (module_name ++ ".py")%string in
     (if has_loader imp module_name module_path then ret tt
      else raise (Exn "ImportError"
                      ("Could not load module: " ++ module_name)%string [])) ;;
     emit (Import module_name) ;;
     module <- lift (exec_module imp module_name module_path) ;;
     found <- lift (getattr module_name module function_name) ;;
     match found with
     | Callable f =>
         modify (fun self => {| handler := Some f;
                                is_shutting_down := is_shutting_down self |}) ;;
         log "info" "RIC initialization completed successfully"
             [("handler", PStr handler_string)] ;;
         ret true
     | Data _ =>
         raise (Exn "ValueError"
                    ("Handler " ++ handler_string ++ " is not callable")%string
                    [])
     end)
    (fun e =>
       log "error" "Initialization failed" [("error", error_record e)] ;;
       raise system_exit).

(** The handler string [init] works with, and the log records of its
    start and of its failure. *)
Definition handler_string_of (HANDLER : option string) : string :=
  match HANDLER with Some s => s | None => "index.handler" end.

Definition init_record (level message : string) (kwargs : list (string * pyval))
  : event :=
  Log (PDict ([("level", PStr level); ("message", PStr message)] ++ kwargs)).

Definition init_started (HANDLER : option string) : event :=
  init_record "INFO" "RIC initialization started"
              [("handler", PStr (handler_string_of HANDLER))].

Definition init_completed (HANDLER : option string) : event :=
  init_record "INFO" "RIC initialization completed successfully"
              [("handler", PStr (handler_string_of HANDLER))].

Definition init_failed (e : exn) : event :=
  init_record "ERROR" "Initialization failed" [("error", error_record e)].

(** [__init__]: no handler yet, not shutting down. *)
Definition fresh : RuntimeInterface :=
  {| handler := None; is_shutting_down := false |}.

Definition is_signal (c : call) : bool :=
  match c with Signal => true | _ => false end.

(** The [try] block of [invoke], lines 103 to 144, and its [except]
    block, lines 146 to 164, for the handler [h], the deadline and the
    request id read before. *)
Definition try_block (h : option handler_fn) (clk : clock) (req : request)
                     (deadline_ms : Z) : M RuntimeInterface response :=
  let start_time := (at_start clk * 1000)%float in
  let request_id := request_id_of req in
  event <- lift (get_json req) ;;
  context <- make_context deadline_ms request_id (at_context clk) start_time ;;
  result <- call_handler h event context ;;
  execution_time <- lift (elapsed_ms (at_completed clk) start_time) ;;
  log "info" "Function execution completed successfully"
      [("requestId", PStr request_id);
       ("executionTimeMs", PInt execution_time)] ;;
  classify result.

Definition except_block (clk : clock) (req : request) (e : exn)
  : M RuntimeInterface response :=
  let start_time := (at_start clk * 1000)%float in
  let request_id := request_id_of req in
  execution_time <- lift (elapsed_ms (at_failed clk) start_time) ;;
  log "error" "Function execution failed"
      [("requestId", PStr request_id);
       ("executionTimeMs", PInt execution_time);
       ("error", error_record e)] ;;
  jsonify (envelope 500 (failure_body e)) 500.

(** The two log records of a request that fails after [ms]
    milliseconds. *)
Definition started_record (req : request) (deadline_ms : Z) : event :=
  Log (PDict [("level", PStr "INFO");
              ("message", PStr "Function execution started");
              ("requestId", PStr (request_id_of req));
              ("deadlineMs", PInt deadline_ms)]).

Definition failed_record (req : request) (ms : Z) (e : exn) : event :=
  Log (PDict [("level", PStr "ERROR");
              ("message", PStr "Function execution failed");
              ("requestId", PStr (request_id_of req));
              ("executionTimeMs", PInt ms);
              ("error", error_record e)]).

(** A response whose document is the envelope of its own status, with
    no logs. *)
Definition well_enveloped (r : response) : Prop :=
  field "status_code" (json r) = PInt (status r)
  /\ field "logs" (json r) = PList []
  /\ (status r = 200 \/ status r = 500 \/ status r = 503).

(** A computation all of whose responses are well enveloped. *)
Definition enveloping (m : M RuntimeInterface response) : Prop :=
  forall s r, outcome_of (m s) = Done r -> well_enveloped r.

End Push.

(** ** The process environment of the two bootstrap scripts *)

Record environ : Type := {
  AWS_LAMBDA_RUNTIME_API : option string;
  AWS_LAMBDA_FUNCTION_NAME : option string;
  AWS_LAMBDA_FUNCTION_VERSION : option string;
  AWS_LAMBDA_FUNCTION_MEMORY_SIZE : option string;
  AWS_LAMBDA_LOG_GROUP_NAME : option string;
  AWS_LAMBDA_LOG_STREAM_NAME : option string;
  LAMBDAH_INSTANCE_ID : option string
}.

Definition RUNTIME_API (env : environ) : string :=
  match AWS_LAMBDA_RUNTIME_API env with
  | Some a => a
  | None => "localhost:9001"
  end.

(** The first statements of both bootstrap scripts: [import
    lambda_function], given what the import brings, then the check that
    its [handler] is callable; a failure is written to the error stream
    and ends the process. *)
Definition load_handler {S : Type} (imported : exn + namespace)
  : M S handler_fn :=
  try_except
    (module <- lift imported ;;
     found <- lift (getattr "lambda_function" module "handler") ;;
     match found with
     | Callable f => ret f
     | Data _ =>
         raise (Exn "Exception"
                    "Handler function not found in lambda_function.py" [])
     end)
    (fun e =>
       emit (Stderr [T "Failed to load handler: "; T (exn_msg e)]) ;;
       raise system_exit).

(** ** The poll transport: [bootstrap.py] *)

Module Poll.

Record invocation : Type := {
  requestId : option string;
  deadline : option string;
  invokedFunctionArn : option string;
  traceId : option string;
  payload : pyval
}.

(** What the Runtime API does during one turn of the loop: what the long
    poll brings, and what [urlopen] does in [post_response] and in
    [post_error] should the turn get there ([None]: the post went
    through). *)
Record turn : Type := {
  next : exn + invocation;
  response_post : option exn;
  error_post : option exn
}.

Section Bootstrap.
Variable env : environ.
Variable handler : handler_fn.

Definition url (ep : endpoint) : string :=
  match ep with
  | NextInvocation =>
      "http://" ++ RUNTIME_API env
        ++ "/2018-06-01/runtime/invocation/next?fn="
        ++ str_of (AWS_LAMBDA_FUNCTION_NAME env)
  | InvocationResponse request_id =>
      "http://" ++ RUNTIME_API env ++ "/2018-06-01/runtime/invocation/"
        ++ request_id ++ "/response"
  | InvocationError request_id =>
      "http://" ++ RUNTIME_API env ++ "/2018-06-01/runtime/invocation/"
        ++ request_id ++ "/error"
  end%string.

Definition get_next_invocation (w : exn + invocation) : M unit invocation :=
  try_except
    (match w with
     | inr inv => emit (HttpGet NextInvocation None) ;; ret inv
     | inl e => emit (HttpGet NextInvocation (Some e)) ;; raise e
     end)
    (fun e =>
       raise (Exn "Exception"
                  ("Failed to get next invocation: " ++ exn_msg e)%string [])).

(** [Exception(f'Failed to post response: {e}')]. *)
Definition post_failure (e : exn) : exn :=
  Exn "Exception" ("Failed to post response: " ++ exn_msg e)%string [].

Definition post_response (request_id : option string) (response : pyval)
                         (w : option exn) : M unit unit :=
  try_except
    (data <- lift (json_dumps response) ;;
     emit (HttpPost (InvocationResponse (str_of request_id)) data w) ;;
     match w with None => ret tt | Some e => raise e end)
    (fun e => raise (post_failure e)).

Definition error_data (error : exn) : pyval :=
  PDict [("errorType", PStr (exn_type error));
         ("errorMessage", PStr (exn_msg error));
         ("stackTrace", PList (map PStr (exn_trace error)))].

Definition post_error (request_id : option string) (error : exn)
                      (w : option exn) : M unit unit :=
  try_except
    (data <- lift (json_dumps (error_data error)) ;;
     emit (HttpPost (InvocationError (str_of request_id)) data w) ;;
     match w with None => ret tt | Some e => raise e end)
    (fun e => emit (Stderr [T "Failed to post error: "; T (exn_msg e)])).

(** What a call of [post_error] leaves in the trace. *)
Definition error_post_trace (request_id : option string) (error : exn)
                            (w : option exn) : list event :=
  HttpPost (InvocationError (str_of request_id)) (error_data error) w
  :: match w with
     | None => []
     | Some e' => [Stderr [T "Failed to post error: "; T (exn_msg e')]]
     end.

Definition make_context (inv : invocation) : pyval :=
  PDict [("function_name", val_of (AWS_LAMBDA_FUNCTION_NAME env));
         ("function_version", val_of (AWS_LAMBDA_FUNCTION_VERSION env));
         ("memory_limit_in_mb", val_of (AWS_LAMBDA_FUNCTION_MEMORY_SIZE env));
         ("log_group_name", val_of (AWS_LAMBDA_LOG_GROUP_NAME env));
         ("log_stream_name", val_of (AWS_LAMBDA_LOG_STREAM_NAME env));
         ("aws_request_id", val_of (requestId inv));
         ("invoked_function_arn", val_of (invokedFunctionArn inv));
         ("trace_id", val_of (traceId inv))].

Definition call_handler (event context : pyval) : M unit pyval :=
  emit (HandlerCall event context) ;;
  match handler event context with
  | Return v => ret v
  | Raise e => raise e
  end.

(** The body of [while True], lines 95 to 122. *)
Definition serve_turn (t : turn) : M unit unit :=
  try_except
    (invocation <- get_next_invocation (next t) ;;
     emit (Stdout [T "Received invocation: ";
                   V (val_of (requestId invocation))]) ;;
     try_except
       (result <- call_handler (payload invocation)
                               (make_context invocation) ;;
        post_response (requestId invocation) result (response_post t) ;;
        emit (Stdout [T "Response posted for: ";
                      V (val_of (requestId invocation))]))
       (fun error =>
          emit (Stderr [T "Handler error: "; T (exn_msg error)]) ;;
          post_error (requestId invocation) error (error_post t)))
    (fun error =>
       emit (Stderr [T "Runtime error: "; T (exn_msg error)]) ;;
       emit (Sleep 1%float)).

(** The loop over the turns the script describes; past them the process
    is blocked in the long poll. *)
Fixpoint loop (script : list turn) : M unit unit :=
  match script with
  | [] => pending
  | t :: rest => serve_turn t ;; loop rest
  end.

Definition main (script : list turn) : M unit unit :=
  emit (Stdout [T "Lambda runtime started"]) ;;
  loop script.

(** The statements of the module after the handler is loaded: under the
    name [__name__] the module is run with, line 124 starts [main] only
    for the script, not for an import. *)
Definition module_body (name : string) (script : list turn) : M unit unit :=
  if String.eqb name "__main__" then main script else ret tt.

End Bootstrap.

(** [bootstrap.py] run as a script. *)
Definition program (env : environ) (imported : exn + namespace)
                   (script : list turn) : M unit unit :=
  handler <- load_handler imported ;;
  module_body env handler "__main__" script.

(** The turns of a script in which the long poll brought an invocation,
    and those in which it failed. *)
Definition fetched (script : list turn) : list turn :=
  filter (fun t => match next t with inr _ => true | inl _ => false end) script.


(** The posts of a trace that went through. *)
Definition delivered (t : list event) : list event :=
  filter (fun ev => match ev with
                    | HttpPost _ _ None => true
                    | _ => false
                    end) t.

Definition posts (t : list event) : list event :=
  filter (fun ev => match ev with
                    | HttpPost _ _ _ => true
                    | _ => false
                    end) t.

End Poll.

(** ** The stream transport: [bootstrap-websocket.py] *)

Module Stream.

Record WebSocketRuntime : Type := {
  websocket : bool;  (* [self.websocket] is not [None] *)
  reconnect_attempts : Z;
  max_reconnect_attempts : Z;
  reconnect_delay : float;
  is_connected : bool;
  should_stop : bool
}.

(** [__init__]. *)
Definition init : WebSocketRuntime := {|
  websocket := false;
  reconnect_attempts := 0;
  max_reconnect_attempts := 10;
  reconnect_delay := 1.0%float;
  is_connected := false;
  should_stop := false
|}.

Definition set_websocket (b : bool) (self : WebSocketRuntime) :=
  {| websocket := b;
     reconnect_attempts := reconnect_attempts self;
     max_reconnect_attempts := max_reconnect_attempts self;
     reconnect_delay := reconnect_delay self;
     is_connected := is_connected self;
     should_stop := should_stop self |}.

Definition set_reconnect_attempts (n : Z) (self : WebSocketRuntime) :=
  {| websocket := websocket self;
     reconnect_attempts := n;
     max_reconnect_attempts := max_reconnect_attempts self;
     reconnect_delay := reconnect_delay self;
     is_connected := is_connected self;
     should_stop := should_stop self |}.

Definition set_reconnect_delay (d : float) (self : WebSocketRuntime) :=
  {| websocket := websocket self;
     reconnect_attempts := reconnect_attempts self;
     max_reconnect_attempts := max_reconnect_attempts self;
     reconnect_delay := d;
     is_connected := is_connected self;
     should_stop := should_stop self |}.

Definition set_is_connected (b : bool) (self : WebSocketRuntime) :=
  {| websocket := websocket self;
     reconnect_attempts := reconnect_attempts self;
     max_reconnect_attempts := max_reconnect_attempts self;
     reconnect_delay := reconnect_delay self;
     is_connected := b;
     should_stop := should_stop self |}.

Definition set_should_stop (b : bool) (self : WebSocketRuntime) :=
  {| websocket := websocket self;
     reconnect_attempts := reconnect_attempts self;
     max_reconnect_attempts := max_reconnect_attempts self;
     reconnect_delay := reconnect_delay self;
     is_connected := is_connected self;
     should_stop := b |}.

(** One text frame from the socket: what [json.loads] makes of it, and
    what [websocket.send] does if handling the frame sends one ([None]:
    the frame went out). *)
Record inbound : Type := {
  loads : exn + pyval;
  wire : option exn
}.

(** How the iteration over the socket ends. *)
Inductive ending : Type :=
| Exhausted                (* the iterator stops without an exception *)
| ConnectionClosed
| Failed (e : exn).

Record session : Type := {
  register_wire : option exn;
  frames : list inbound;
  session_signal : option Z;  (* a signal whose shutdown task ran during
                                 the session, by number *)
  ends : ending
}.

(** One call of [websockets.connect]: the signal, if any, whose shutdown
    task ran while it was awaited, and what it brought. *)
Record attempt : Type := {
  attempt_signal : option Z;
  opened : exn + session
}.

(** Run a computation of the poll module inside the stream process. *)
Definition embed {S A} (m : M unit A) : M S A :=
  fun s => match m tt with (t, _, r) => (t, s, r) end.

Section Bootstrap.
Variable env : environ.
Variable handler : handler_fn.
(** What the Runtime API would do for a poll loop in this process. *)
Variable polls : list Poll.turn.

Definition FUNCTION_VERSION : string :=
  match AWS_LAMBDA_FUNCTION_VERSION env with Some v => v | None => "1" end.

Definition ws_url : string :=
  ("ws://" ++ RUNTIME_API env ++ "/2018-06-01/runtime/websocket?fn="
     ++ str_of (AWS_LAMBDA_FUNCTION_NAME env))%string.

Definition send (message : pyval) (w : option exn)
  : M WebSocketRuntime unit :=
  self <- get ;;
  if websocket self && is_connected self then
    try_except
      (data <- lift (json_dumps message) ;;
       emit (WsSend data w) ;;
       match w with None => ret tt | Some e => raise e end)
      (fun e =>
         emit (Stderr [T "Failed to send WebSocket message: ";
                       T (exn_msg e)]))
  else
    emit (Stderr [T "WebSocket not connected, cannot send message"]).

(** What a call of [send] leaves in the trace. *)
Definition send_trace (message : pyval) (w : option exn)
                      (self : WebSocketRuntime) : list event :=
  if websocket self && is_connected self then
    match json_dumps message with
    | inl e => [Stderr [T "Failed to send WebSocket message: "; T (exn_msg e)]]
    | inr data =>
        WsSend data w
        :: match w with
           | None => []
           | Some e =>
               [Stderr [T "Failed to send WebSocket message: "; T (exn_msg e)]]
           end
    end
  else [Stderr [T "WebSocket not connected, cannot send message"]].

Definition register_frame : pyval :=
  PDict [("type", PStr "register");
         ("function_name", val_of (AWS_LAMBDA_FUNCTION_NAME env));
         ("runtime", PStr "python311");
         ("version", PStr FUNCTION_VERSION);
         ("instance_id", val_of (LAMBDAH_INSTANCE_ID env))].

Definition register (w : option exn) : M WebSocketRuntime unit :=
  send (PDict [("type", PStr "register");
               ("function_name", val_of (AWS_LAMBDA_FUNCTION_NAME env));
               ("runtime", PStr "python311");
               ("version", PStr FUNCTION_VERSION);
               ("instance_id", val_of (LAMBDAH_INSTANCE_ID env))]) w.

Definition make_context (request_id invoked_function_arn trace_id : pyval)
  : pyval :=
  PDict [("function_name", val_of (AWS_LAMBDA_FUNCTION_NAME env));
         ("function_version", PStr FUNCTION_VERSION);
         ("memory_limit_in_mb", val_of (AWS_LAMBDA_FUNCTION_MEMORY_SIZE env));
         ("log_group_name", val_of (AWS_LAMBDA_LOG_GROUP_NAME env));
         ("log_stream_name", val_of (AWS_LAMBDA_LOG_STREAM_NAME env));
         ("aws_request_id", request_id);
         ("invoked_function_arn", invoked_function_arn);
         ("trace_id", trace_id)].

Definition call_handler (event context : pyval) : M WebSocketRuntime pyval :=
  emit (HandlerCall event context) ;;
  match handler event context with
  | Return v => ret v
  | Raise e => raise e
  end.

Definition response_frame (request_id result : pyval) : pyval :=
  PDict [("type", PStr "response");
         ("request_id", request_id);
         ("payload", result);
         ("headers", PDict [("X-Amz-Executed-Version", PStr FUNCTION_VERSION)])].

Definition error_frame (request_id : pyval) (error : exn) : pyval :=
  PDict [("type", PStr "error");
         ("request_id", request_id);
         ("error_message", PStr (exn_msg error));
         ("error_type", PStr (exn_type error));
         ("stack_trace", PList (map PStr (exn_trace error)));
         ("headers", PDict [("X-Amz-Function-Error", PStr "Unhandled")])].

Definition handle_invocation (message : pyval) (w : option exn)
  : M WebSocketRuntime unit :=
  request_id <- lift (py_get message "request_id") ;;
  payload <- lift (py_get message "payload") ;;
  deadline_ms <- lift (py_get message "deadline_ms") ;;
  invoked_function_arn <- lift (py_get message "invoked_function_arn") ;;
  trace_id <- lift (py_get message "trace_id") ;;
  emit (Stdout [T "Received invocation: "; V request_id]) ;;
  try_except
    (result <- call_handler payload
                 (make_context request_id invoked_function_arn trace_id) ;;
     send (response_frame request_id result) w ;;
     emit (Stdout [T "Response posted for: "; V request_id]))
    (fun error =>
       emit (Stderr [T "Handler error: "; T (exn_msg error)]) ;;
       send (error_frame request_id error) w).

Definition is_str (v : pyval) (s : string) : bool :=
  match v with PStr s' => String.eqb s' s | _ => false end.

Definition handle_message (message : pyval) (w : option exn)
  : M WebSocketRuntime unit :=
  message_type <- lift (py_get message "type") ;;
  if is_str message_type "invocation" then handle_invocation message w
  else if is_str message_type "ping" then send (PDict [("type", PStr "pong")]) w
  else if is_str message_type "error_response" then
    text <- lift (py_get_default message "message" (PStr "Unknown error")) ;;
    emit (Stderr [T "Server error: "; V text])
  else emit (Stderr [T "Unknown message type: "; V message_type]).

(** [shutdown], as the task the signal handler creates. *)
Definition shutdown : M WebSocketRuntime unit :=
  modify (set_should_stop true) ;;
  self <- get ;;
  (if websocket self then emit WsClose else ret tt) ;;
  emit (Stdout [T "WebSocket runtime shutdown complete"]).

(** [signal_handler], followed by the task it creates. *)
Definition signalled (sig : option Z) : M WebSocketRuntime unit :=
  match sig with
  | Some signum =>
      emit (Stdout [T "Received signal "; N signum; T ", shutting down..."]) ;;
      shutdown
  | None => ret tt
  end.

(** [fallback_to_http]: the import runs the poll module under its own
    name. *)
Definition fallback_to_http : M WebSocketRuntime unit :=
  emit (Stdout [T "Falling back to HTTP runtime..."]) ;;
  emit (Import "bootstrap") ;;
  embed (Poll.module_body env handler "bootstrap" polls).

(** [handle_reconnect], with the [connect] it awaits passed in. *)
Definition handle_reconnect (connect : M WebSocketRuntime unit)
  : M WebSocketRuntime unit :=
  self <- get ;;
  if (reconnect_attempts self <? max_reconnect_attempts self)
     && negb (should_stop self)
  then
    modify (fun self =>
              set_reconnect_attempts (reconnect_attempts self + 1) self) ;;
    self <- get ;;
    emit (Stdout [T "Attempting to reconnect (";
                  N (reconnect_attempts self); T "/";
                  N (max_reconnect_attempts self); T ") in ";
                  F (reconnect_delay self); T "s"]) ;;
    emit (Sleep (reconnect_delay self)) ;;
    connect ;;
    (* Exponential backoff *)
    modify (fun self =>
              set_reconnect_delay
                (py_min (reconnect_delay self * 2)%float 30.0%float) self)
  else
    emit (Stderr [T "Max reconnection attempts reached, falling back to HTTP"]) ;;
    fallback_to_http.

(** The body of [async for message in self.websocket]. *)
Definition on_frame (f : inbound) : M WebSocketRuntime unit :=
  match loads f with
  | inl e =>
      emit (Stderr [T "Failed to parse WebSocket message: "; T (exn_msg e)])
  | inr data =>
      try_except
        (handle_message data (wire f))
        (fun e => emit (Stderr [T "Error handling message: "; T (exn_msg e)]))
  end.

Fixpoint on_frames (fs : list inbound) : M WebSocketRuntime unit :=
  match fs with
  | [] => ret tt
  | f :: rest => on_frame f ;; on_frames rest
  end.

(** [message_loop], with the [connect] its [handle_reconnect] awaits
    passed in. *)
Definition message_loop (sess : session) (connect : M WebSocketRuntime unit)
  : M WebSocketRuntime unit :=
  on_frames (frames sess) ;;
  signalled (session_signal sess) ;;
  match ends sess with
  | Exhausted => ret tt
  | ConnectionClosed =>
      emit (Stdout [T "WebSocket connection closed"]) ;;
      modify (set_is_connected false) ;;
      handle_reconnect connect
  | Failed e =>
      emit (Stderr [T "WebSocket error: "; T (exn_msg e)]) ;;
      modify (set_is_connected false) ;;
      handle_reconnect connect
  end.

(** [connect]: one call of [websockets.connect] per element of the
    script; past the script the process is left awaiting the connection. *)
Fixpoint connect (script : list attempt) : M WebSocketRuntime unit :=
  match script with
  | [] => emit (Stdout [T "Connecting to WebSocket: "; T ws_url]) ;; pending
  | a :: rest =>
      emit (Stdout [T "Connecting to WebSocket: "; T ws_url]) ;;
      signalled (attempt_signal a) ;;
      try_except
        (match opened a with
         | inl e => emit (WsConnect (Some e)) ;; raise e
         | inr sess =>
             emit (WsConnect None) ;;
             modify (set_websocket true) ;;
             modify (set_is_connected true) ;;
             modify (set_reconnect_attempts 0) ;;
             emit (Stdout [T "WebSocket connected"]) ;;
             register (register_wire sess) ;;
             message_loop sess (connect rest)
         end)
        (fun e =>
           emit (Stderr [T "WebSocket connection failed: "; T (exn_msg e)]) ;;
           modify (set_is_connected false) ;;
           handle_reconnect (connect rest))
  end.

Definition main (script : list attempt) : M WebSocketRuntime unit :=
  emit (Stdout [T "Lambda runtime started with WebSocket support"]) ;;
  try_except
    (connect script)
    (fun e =>
       emit (Stderr [T "Runtime error: "; T (exn_msg e)]) ;;
       shutdown).

End Bootstrap.

(** The delays slept, in order. *)
Fixpoint sleeps (t : list event) : list float :=
  match t with
  | [] => []
  | Sleep d :: rest => d :: sleeps rest
  | _ :: rest => sleeps rest
  end.

(** The calls of [websocket.send], in order: the frame and what became of
    it. *)
Definition ws_sends (t : list event) : list (pyval * option exn) :=
  flat_map (fun ev => match ev with
                      | WsSend frame w => [(frame, w)]
                      | _ => []
                      end) t.

(** The events of a reconnection or of the fallback. *)
Definition reconnects (t : list event) : list event :=
  filter (fun ev => match ev with
                    | Sleep _ | WsConnect _ | Import _ => true
                    | _ => false
                    end) t.

(** The requests to the Runtime API over HTTP. *)
Definition http_requests (t : list event) : list event :=
  filter (fun ev => match ev with
                    | HttpGet _ _ | HttpPost _ _ _ => true
                    | _ => false
                    end) t.

(** A computation that sleeps nothing and leaves [reconnect_delay] as it
    found it; one that, on top of that, never raises; and one whose every
    sleep lasts the [reconnect_delay] it started with and that never
    raises. *)
Definition soft {A} (m : M WebSocketRuntime A) : Prop :=
  forall s,
    sleeps (trace_of (m s)) = []
    /\ reconnect_delay (state_of (m s)) = reconnect_delay s.

Definition never_raises {A} (m : M WebSocketRuntime A) : Prop :=
  forall s e, outcome_of (m s) <> Raised e.

Definition gentle {A} (m : M WebSocketRuntime A) : Prop :=
  soft m /\ never_raises m.

Definition steady {A} (m : M WebSocketRuntime A) : Prop :=
  forall s,
    Forall (fun d => d = reconnect_delay s) (sleeps (trace_of (m s)))
    /\ forall e, outcome_of (m s) <> Raised e.

(** The frame that answers a [ping]. *)
Definition pong : pyval := PDict [("type", PStr "pong")].

(** The runtime object right after a connection has opened. *)
Definition just_opened (self : WebSocketRuntime) : WebSocketRuntime :=
  set_reconnect_attempts 0 (set_is_connected true (set_websocket true self)).

(** An attempt that opens the session [sess], no signal around. *)
Definition accepted (sess : session) : attempt :=
  {| attempt_signal := None; opened := inr sess |}.

(** A computation that leaves the runtime object alone, does nothing of
    a reconnection, and is never left waiting. *)
Definition harmless {A} (m : M WebSocketRuntime A) : Prop :=
  forall s,
    state_of (m s) = s
    /\ reconnects (trace_of (m s)) = []
    /\ outcome_of (m s) <> Pending.

(** The runtime object after a connection has opened and dropped and the
    first reconnection attempt has been counted. *)
Definition dropped_once (self : WebSocketRuntime) : WebSocketRuntime :=
  {| websocket := true;
     reconnect_attempts := 1;
     max_reconnect_attempts := max_reconnect_attempts self;
     reconnect_delay := reconnect_delay self;
     is_connected := false;
     should_stop := should_stop self |}.

(** A connection attempt that fails with [e], no signal around. *)
Definition refused (e : exn) : attempt :=
  {| attempt_signal := None; opened := inl e |}.

End Stream.

(** [bootstrap-websocket.py] run as a script. *)
Definition stream_program (env : environ) (imported : exn + namespace)
                          (polls : list Poll.turn)
                          (script : list Stream.attempt)
  : M Stream.WebSocketRuntime unit :=
  handler <- load_handler imported ;;
  Stream.main env handler polls script.

(** ** A sample function: [test_function.py] *)

Module TestFunction.

(** The two lines the handler prints before it returns. *)
Definition printed (payload context : pyval) : list event :=
  [Stdout [T "Event: "; V payload]; Stdout [T "Context: "; V context]].

(** The value the handler returns (or the exception of
    [context.get] on a context that is no dict). *)
Definition handler : handler_fn :=
  fun event context =>
    match py_get_default context "timestamp" (PStr "unknown") with
    | inl e => Raise e
    | inr timestamp =>
        Return (PDict [("statusCode", PInt 200);
                       ("body",
                        PDict [("message",
                                PStr "Hello from Lambda@Home Python!");
                               ("event", event);
                               ("timestamp", timestamp)])])
    end.

End TestFunction.

(** ** Sample inputs

    The request of the tests of the push transport, and small scripts for
    the other two. *)

Definition sample_payload : pyval := PDict [("test", PStr "data")].

Definition sample_runtime : Push.RuntimeInterface := {|
  Push.handler := Some Push.echo;
  Push.is_shutting_down := false
|}.

Definition sample_request : Push.request := {|
  Push.x_deadline_ms := Some "3000";
  Push.x_request_id := Some "test-123";
  Push.get_json := inr sample_payload
|}.

Definition malformed_request : Push.request := {|
  Push.x_deadline_ms := Some "soon";
  Push.x_request_id := Some "test-123";
  Push.get_json := inr sample_payload
|}.

(** A request that starts at second 1000 sharp; the context is built a
    quarter of a second later. *)
Definition sample_clock : Push.clock := {|
  Push.at_start := 1000%float;
  Push.at_context := 1000.25%float;
  Push.at_completed := 1000.5%float;
  Push.at_failed := 1000.5%float
|}.

Definition marked_result : pyval :=
  PDict [("base64", PBool true); ("data", PStr "aGk=")].

Definition sample_env : environ := {|
  AWS_LAMBDA_RUNTIME_API := None;
  AWS_LAMBDA_FUNCTION_NAME := Some "echo";
  AWS_LAMBDA_FUNCTION_VERSION := None;
  AWS_LAMBDA_FUNCTION_MEMORY_SIZE := None;
  AWS_LAMBDA_LOG_GROUP_NAME := None;
  AWS_LAMBDA_LOG_STREAM_NAME := None;
  LAMBDAH_INSTANCE_ID := None
|}.

Definition sample_invocation : Poll.invocation := {|
  Poll.requestId := Some "r-1";
  Poll.deadline := None;
  Poll.invokedFunctionArn := None;
  Poll.traceId := None;
  Poll.payload := sample_payload
|}.

Definition connection_reset : exn :=
  Exn "URLError" "<urlopen error [Errno 104] Connection reset by peer>" [].

(** A Runtime API that hands out one invocation, refuses the post of its
    response, and accepts the post of the error. *)
Definition refused_post : Poll.turn := {|
  Poll.next := inr sample_invocation;
  Poll.response_post := Some connection_reset;
  Poll.error_post := None
|}.

(** An invocation frame, a socket that is gone, and a runtime object that
    still believes it is connected. *)
Definition sample_frame : list (string * pyval) :=
  [("type", PStr "invocation");
   ("request_id", PStr "r-1");
   ("payload", sample_payload)].

Definition socket_gone : exn :=
  Exn "ConnectionClosedError" "no close frame received or sent" [].

Definition connected : Stream.WebSocketRuntime :=
  Stream.set_is_connected true (Stream.set_websocket true Stream.init).



Definition binary : handler_fn :=
  fun _ _ => Return (PBytes [Byte.x68; Byte.x69]).

Definition nested_binary : handler_fn :=
  fun _ _ => Return (PList [PBytes [Byte.x68; Byte.x69]]).

Definition runtime_with (f : handler_fn) : Push.RuntimeInterface :=
  {| Push.handler := Some f; Push.is_shutting_down := false |}.

Definition bad_json : exn :=
  Exn "BadRequest" "400 Bad Request: Failed to decode JSON object" [].

Definition unparsable_request : Push.request := {|
  Push.x_deadline_ms := None;
  Push.x_request_id := None;
  Push.get_json := inl bad_json
|}.

(** A working directory with an [index.py] that defines the echo handler
    and a constant, and nothing else. *)
Definition sample_importer : Push.importer := {|
  Push.has_loader := fun _ _ => true;
  Push.exec_module := fun _ path =>
    if String.eqb path "/var/task/index.py"
    then inr [("VERSION", Data (PInt 1)); ("handler", Callable Push.echo)]
    else inl (Exn "FileNotFoundError" "No such file or directory" [])
|}.

Definition no_handler_module : exn + namespace :=
  inr [("main", Callable Push.echo)].

Definition failed_fetch : Poll.turn := {|
  Poll.next := inl connection_reset;
  Poll.response_post := None;
  Poll.error_post := None
|}.

Definition accepted_posts : Poll.turn := {|
  Poll.next := inr sample_invocation;
  Poll.response_post := None;
  Poll.error_post := None
|}.

Definition ping_frame : list (string * pyval) := [("type", PStr "ping")].

Definition unknown_frame : Stream.inbound := {|
  Stream.loads := inr (PDict [("type", PStr "status")]);
  Stream.wire := None
|}.

Definition dropped_session : Stream.session := {|
  Stream.register_wire := None;
  Stream.frames := [];
  Stream.session_signal := None;
  Stream.ends := Stream.ConnectionClosed
|}.

Definition closed_session : Stream.session := {|
  Stream.register_wire := None;
  Stream.frames := [];
  Stream.session_signal := None;
  Stream.ends := Stream.Exhausted
|}.

(** A runtime object whose ten attempts are used up. *)
Definition exhausted : Stream.WebSocketRuntime :=
  Stream.set_reconnect_attempts 10 Stream.init.

(** * Properties *)

(** ** The host language *)

Example int_of_str_samples :
  map int_of_str ["3000"; " -42 "; "+7"; "1_000"; "abc"; ""; "1__0"; "_1";
                  "1_"; "- 5"; "3.5"; "0x10"; "007"]
  = [Some 3000; Some (-42); Some 7; Some 1000; None; None; None; None;
     None; None; None; None; Some 7].
Proof. vm_compute. reflexivity. Qed.

Example b64encode_samples :
  map b64encode [[]; [Byte.x68]; [Byte.x68; Byte.x69];
                 [Byte.x68; Byte.x69; Byte.x21];
                 [Byte.xff; Byte.x00; Byte.xfe; Byte.x10]]
  = [""; "aA=="; "aGk="; "aGkh"; "/wD+EA=="].
Proof. vm_compute. reflexivity. Qed.

Example int_of_float_samples :
  map int_of_float [0%float; 2.75%float; (-2.75)%float; 1e3%float;
                    (1000.25 * 1000 - 1000 * 1000)%float]
  = [inr 0; inr 2; inr (-2); inr 1000; inr 250].
Proof. vm_compute. reflexivity. Qed.

(** ** Computations that leave the state alone *)

Section KeepsState.
Context {S : Type}.

Definition keeps_state {A} (m : M S A) : Prop :=
  forall s, state_of (m s) = s.

Lemma keeps_ret {A} (a : A) : keeps_state (ret a).
Proof. intro s. reflexivity. Qed.

Lemma keeps_raise {A} (e : exn) : keeps_state (@raise S A e).
Proof. intro s. reflexivity. Qed.

Lemma keeps_pending {A} : keeps_state (@pending S A).
Proof. intro s. reflexivity. Qed.

Lemma keeps_emit (ev : event) : keeps_state (emit ev).
Proof. intro s. reflexivity. Qed.

Lemma keeps_get : keeps_state get.
Proof. intro s. reflexivity. Qed.

Lemma keeps_lift {A} (r : exn + A) : keeps_state (lift r).
Proof. destruct r; intro s; reflexivity. Qed.

Lemma keeps_bind {A B} (m : M S A) (k : A -> M S B) :
  keeps_state m -> (forall a, keeps_state (k a)) -> keeps_state (bind m k).
Proof.
  intros Hm Hk s. unfold bind. specialize (Hm s).
  destruct (m s) as [[t s'] [a | e | ]]; unfold state_of in *; simpl in *;
    subst; try reflexivity.
  specialize (Hk a s). destruct (k a s) as [[t' s''] r]. exact Hk.
Qed.

Lemma keeps_try_except {A} (m : M S A) (h : exn -> M S A) :
  keeps_state m -> (forall e, keeps_state (h e)) -> keeps_state (try_except m h).
Proof.
  intros Hm Hh s. unfold try_except. specialize (Hm s).
  destruct (m s) as [[t s'] [a | e | ]]; unfold state_of in *; simpl in *;
    subst; try reflexivity.
  specialize (Hh e s). destruct (h e s) as [[t' s''] r]. exact Hh.
Qed.

End KeepsState.

Create HintDb keeps.
#[export] Hint Resolve keeps_ret keeps_raise keeps_pending keeps_emit
  keeps_get keeps_lift : keeps.

Ltac keeps :=
  repeat first
    [ progress auto with keeps
    | apply keeps_bind; [ | intro ]
    | apply keeps_try_except; [ | intro ]
    | match goal with
      | |- keeps_state (if ?b then _ else _) => destruct b
      | |- keeps_state (match ?x with _ => _ end) => destruct x
      end ].

(** ** Running a computation step by step *)

Section Steps.
Context {S : Type}.

Lemma bind_done {A B} (m : M S A) (k : A -> M S B) s t s' a :
  m s = (t, s', Done a) ->
  bind m k s = (t ++ trace_of (k a s'), state_of (k a s'), outcome_of (k a s')).
Proof.
  intro H. unfold bind. rewrite H. destruct (k a s') as [[t' s''] r].
  reflexivity.
Qed.

Lemma try_done {A} (m : M S A) (h : exn -> M S A) s t s' a :
  m s = (t, s', Done a) -> try_except m h s = (t, s', Done a).
Proof. intro H. unfold try_except. rewrite H. reflexivity. Qed.

Lemma try_raised {A} (m : M S A) (h : exn -> M S A) s t s' e :
  m s = (t, s', Raised e) ->
  try_except m h s
  = (t ++ trace_of (h e s'), state_of (h e s'), outcome_of (h e s')).
Proof.
  intro H. unfold try_except. rewrite H. destruct (h e s') as [[t' s''] r].
  reflexivity.
Qed.

(** The handler calls of a sequence are those of its first part, then
    those of what follows when the first part finishes. *)
Lemma calls_bind {A B} (m : M S A) (k : A -> M S B) s :
  handler_calls (trace_of (bind m k s))
  = handler_calls (trace_of (m s))
    ++ match outcome_of (m s) with
       | Done a => handler_calls (trace_of (k a (state_of (m s))))
       | _ => []
       end.
Proof.
  unfold bind, trace_of, state_of, outcome_of.
  destruct (m s) as [[t s'] [a | e | ]]; simpl;
    try (rewrite app_nil_r; reflexivity).
  destruct (k a s') as [[t' s''] r]. simpl. apply flat_map_app.
Qed.

Lemma calls_try_except {A} (m : M S A) (h : exn -> M S A) s :
  handler_calls (trace_of (try_except m h s))
  = handler_calls (trace_of (m s))
    ++ match outcome_of (m s) with
       | Raised e => handler_calls (trace_of (h e (state_of (m s))))
       | _ => []
       end.
Proof.
  unfold try_except, trace_of, state_of, outcome_of.
  destruct (m s) as [[t s'] [a | e | ]]; simpl;
    try (rewrite app_nil_r; reflexivity).
  destruct (h e s') as [[t' s''] r]. simpl. apply flat_map_app.
Qed.

(** A computation that never calls the handler. *)
Definition quiet {A} (m : M S A) : Prop :=
  forall s, handler_calls (trace_of (m s)) = [].

Lemma quiet_ret {A} (a : A) : quiet (ret a).
Proof. intro s. reflexivity. Qed.

Lemma quiet_raise {A} (e : exn) : quiet (@raise S A e).
Proof. intro s. reflexivity. Qed.

Lemma quiet_get : quiet (@get S).
Proof. intro s. reflexivity. Qed.

Lemma quiet_lift {A} (r : exn + A) : quiet (@lift S A r).
Proof. destruct r; intro s; reflexivity. Qed.

Lemma quiet_log (entry : pyval) : quiet (@emit S (Log entry)).
Proof. intro s. reflexivity. Qed.

Lemma quiet_bind {A B} (m : M S A) (k : A -> M S B) :
  quiet m -> (forall a, quiet (k a)) -> quiet (bind m k).
Proof.
  intros Hm Hk s. rewrite calls_bind, Hm. simpl.
  destruct (outcome_of (m s)); try reflexivity. apply Hk.
Qed.

Lemma quiet_try_except {A} (m : M S A) (h : exn -> M S A) :
  quiet m -> (forall e, quiet (h e)) -> quiet (try_except m h).
Proof.
  intros Hm Hh s. rewrite calls_try_except, Hm. simpl.
  destruct (outcome_of (m s)); try reflexivity. apply Hh.
Qed.

End Steps.

Create HintDb quiet.
#[export] Hint Resolve quiet_ret quiet_raise quiet_get quiet_lift quiet_log
  : quiet.

Ltac quiet :=
  repeat first
    [ progress auto with quiet
    | apply quiet_bind; [ | intro ]
    | apply quiet_try_except; [ | intro ]
    | match goal with
      | |- quiet (if ?b then _ else _) => destruct b
      | |- quiet (match ?x with _ => _ end) => destruct x
      end ].

Ltac step :=
  cbn [state_of outcome_of trace_of get ret emit raise lift pending modify
       fst snd handler_calls flat_map app].

(** ** The push transport *)

Section PushFacts.
Import Push.

Lemma jsonify_keeps (v : pyval) (code : Z) : keeps_state (jsonify v code).
Proof. unfold jsonify. keeps. Qed.

Lemma log_keeps level message kwargs : keeps_state (log level message kwargs).
Proof. unfold log. keeps. Qed.

Lemma classify_keeps (result : pyval) : keeps_state (classify result).
Proof.
  unfold classify, respond_binary, respond_marked, respond_default.
  destruct result; try destruct (has_base64_marker _); apply jsonify_keeps.
Qed.

Lemma call_handler_keeps h event context :
  keeps_state (call_handler h event context).
Proof. unfold call_handler. keeps. Qed.

Lemma make_context_keeps D rid now start :
  keeps_state (make_context D rid now start).
Proof. unfold make_context. keeps. Qed.

(** A view of [/invoke] never writes to the runtime object. *)
Lemma invoke_keeps (clk : clock) (req : request) : keeps_state (invoke clk req).
Proof.
  unfold invoke.
  apply keeps_bind; [ auto with keeps | intro self ].
  destruct (is_shutting_down self); [ apply jsonify_keeps | ].
  apply keeps_bind; [ auto with keeps | intro D ].
  apply keeps_bind; [ apply log_keeps | intros _ ].
  apply keeps_try_except.
  - apply keeps_bind; [ auto with keeps | intro ev ].
    apply keeps_bind; [ apply make_context_keeps | intro ctx ].
    apply keeps_bind; [ apply call_handler_keeps | intro result ].
    apply keeps_bind; [ auto with keeps | intro ms ].
    apply keeps_bind; [ apply log_keeps | intros _ ].
    apply classify_keeps.
  - intro e.
    apply keeps_bind; [ auto with keeps | intro ms ].
    apply keeps_bind; [ apply log_keeps | intros _ ].
    apply jsonify_keeps.
Qed.

Lemma health_keeps : keeps_state health.
Proof. unfold health. apply jsonify_keeps. Qed.

(** The flag only goes from false to true. *)
Lemma serve_one_monotone (c : call) (self : RuntimeInterface) :
  is_shutting_down self = true ->
  is_shutting_down (serve_one c self) = true.
Proof.
  intro H. destruct c as [ | clk req | ]; simpl.
  - rewrite health_keeps. exact H.
  - rewrite invoke_keeps. exact H.
  - reflexivity.
Qed.

Lemma serve_monotone (calls : list call) (self : RuntimeInterface) :
  is_shutting_down self = true ->
  is_shutting_down (serve calls self) = true.
Proof.
  revert self. induction calls as [ | c calls IH ]; intros self H; simpl.
  - exact H.
  - apply IH. apply serve_one_monotone. exact H.
Qed.

Lemma invoke_when_shutting_down clk req self :
  is_shutting_down self = true ->
  invoke clk req self
  = ([], self, Done {| status := 503; json := unavailable |}).
Proof.
  intro H. unfold invoke, bind, get. rewrite H. reflexivity.
Qed.

(** C6: once [handle_shutdown] has run, whatever the server goes through
    afterwards, every [POST /invoke] answers 503 with the
    [ServiceUnavailable] body, without a log record and without calling
    the handler. *)
Theorem invoke_after_shutdown
  (self : RuntimeInterface) (calls : list call) (clk : clock) (req : request) :
  let self' := serve calls (state_of (handle_shutdown self)) in
  invoke clk req self' = ([], self', Done {| status := 503; json := unavailable |})
  /\ handler_calls (trace_of (invoke clk req self')) = []
  /\ py_get unavailable "body"
     = inr (PDict [("errorMessage", PStr "Service is shutting down");
                   ("errorType", PStr "ServiceUnavailable")]).
Proof.
  intro self'.
  assert (H : is_shutting_down self' = true).
  { apply serve_monotone. reflexivity. }
  rewrite (invoke_when_shutting_down clk req self' H).
  repeat split.
Qed.

Lemma log_run level message kwargs self :
  log level message kwargs self
  = ([Log (PDict ([("level", PStr (upper level));
                   ("message", PStr message)] ++ kwargs))], self, Done tt).
Proof. reflexivity. Qed.

Lemma call_handler_calls f event ctx self :
  handler_calls (trace_of (call_handler (Some f) event ctx self))
  = [(event, ctx)].
Proof.
  unfold call_handler, bind, emit. simpl. destruct (f event ctx); reflexivity.
Qed.

Lemma jsonify_quiet (v : pyval) (code : Z) : quiet (jsonify v code).
Proof. unfold jsonify. quiet. Qed.

Lemma log_quiet level message kwargs : quiet (log level message kwargs).
Proof. unfold log. quiet. Qed.

Lemma classify_quiet (result : pyval) : quiet (classify result).
Proof.
  unfold classify, respond_binary, respond_marked, respond_default.
  destruct result; try destruct (has_base64_marker _); apply jsonify_quiet.
Qed.

(** What follows the handler call in the [try] block, and the [except]
    block, call no handler. *)
Lemma after_call_quiet clk start_time request_id (result : pyval) :
  quiet (execution_time <- lift (elapsed_ms (at_completed clk) start_time) ;;
         log "info" "Function execution completed successfully"
             [("requestId", PStr request_id);
              ("executionTimeMs", PInt execution_time)] ;;
         classify result).
Proof.
  apply quiet_bind; [ auto with quiet | intro ms ].
  apply quiet_bind; [ apply log_quiet | intros _ ].
  apply classify_quiet.
Qed.

Lemma except_quiet clk start_time request_id (e : exn) :
  quiet (execution_time <- lift (elapsed_ms (at_failed clk) start_time) ;;
         log "error" "Function execution failed"
             [("requestId", PStr request_id);
              ("executionTimeMs", PInt execution_time);
              ("error", error_record e)] ;;
         jsonify (envelope 500 (failure_body e)) 500).
Proof.
  apply quiet_bind; [ auto with quiet | intro ms ].
  apply quiet_bind; [ apply log_quiet | intros _ ].
  apply jsonify_quiet.
Qed.

(** The one handler call of a request that reaches the handler, given the
    context [make_context] builds. *)
Lemma invoke_calls self clk req f D event ctx :
  is_shutting_down self = false ->
  handler self = Some f ->
  read_deadline (x_deadline_ms req) = inr D ->
  get_json req = inr event ->
  make_context D (request_id_of req)
               (at_context clk) (at_start clk * 1000)%float self
  = ([], self, Done ctx) ->
  handler_calls (trace_of (invoke clk req self)) = [(event, ctx)].
Proof.
  intros Hup Hh HD Hj Hctx. unfold invoke.
  rewrite calls_bind. step. rewrite Hup.
  rewrite calls_bind, HD. step.
  rewrite calls_bind, log_run. step.
  rewrite calls_try_except.
  match goal with
  | |- _ ++ ?tail = _ =>
      assert (Htail : tail = []);
      [ | rewrite Htail, app_nil_r; clear Htail ]
  end.
  { destruct (outcome_of _); try reflexivity. apply except_quiet. }
  rewrite calls_bind, Hj. step.
  rewrite calls_bind, Hctx. step.
  rewrite calls_bind, Hh, call_handler_calls. simpl.
  destruct (outcome_of _); try reflexivity.
  rewrite after_call_quiet. reflexivity.
Qed.

Lemma make_context_positive D rid now start E self :
  0 < D -> elapsed_ms now start = inr E ->
  make_context D rid now start self
  = ([], self, Done (PDict [("deadlineMs", PInt (D - E));
                            ("requestId", PStr rid)])).
Proof.
  intros HD HE. unfold make_context, bind.
  replace (0 <? D) with true by (symmetry; apply Z.ltb_lt; exact HD).
  rewrite HE. reflexivity.
Qed.

Lemma make_context_no_deadline D rid now start self :
  D <= 0 ->
  make_context D rid now start self
  = ([], self, Done (PDict [("deadlineMs", PInt 0); ("requestId", PStr rid)])).
Proof.
  intros HD. unfold make_context, bind.
  replace (0 <? D) with false by (symmetry; apply Z.ltb_ge; exact HD).
  reflexivity.
Qed.

(** C7: the [deadlineMs] handed to the handler is [D - E] when the
    supplied deadline [D] is positive, [E] being the whole milliseconds
    elapsed since line 96 took the start time; it is 0 when the header is
    absent, and when the deadline supplied is not positive. *)
Theorem remaining_time_ms
  (self : RuntimeInterface) (clk : clock) (req : request)
  (f : handler_fn) (D : Z) (event : pyval) :
  reaches_handler self req f D event ->
  (forall E, 0 < D ->
     elapsed_ms (at_context clk) (at_start clk * 1000)%float = inr E ->
     deadlines_seen (trace_of (invoke clk req self)) = [PInt (D - E)])
  /\ (D <= 0 -> deadlines_seen (trace_of (invoke clk req self)) = [PInt 0])
  /\ (x_deadline_ms req = None ->
      deadlines_seen (trace_of (invoke clk req self)) = [PInt 0]).
Proof.
  intros (Hup & Hh & HD & Hj).
  assert (Hzero : D <= 0 ->
            deadlines_seen (trace_of (invoke clk req self)) = [PInt 0]).
  { intro Hle. unfold deadlines_seen.
    erewrite invoke_calls; eauto using make_context_no_deadline.
    reflexivity. }
  split; [ | split ].
  - intros E Hpos HE. unfold deadlines_seen.
    erewrite invoke_calls; eauto using make_context_positive.
    reflexivity.
  - exact Hzero.
  - intro Habs. apply Hzero. rewrite Habs in HD. simpl in HD.
    injection HD as <-. lia.
Qed.

Lemma classify_serializable (result : pyval) (self : RuntimeInterface) :
  json_ok result = true ->
  classify result self
  = ([], self, Done {| status := 200; json := envelope 200 result |}).
Proof.
  intro H.
  assert (Hdoc : json_dumps (envelope 200 result) = inr (envelope 200 result)).
  { unfold json_dumps. simpl. rewrite H. reflexivity. }
  assert (Hrun : jsonify (envelope 200 result) 200 self
                 = ([], self, Done {| status := 200;
                                      json := envelope 200 result |})).
  { unfold jsonify, bind. rewrite Hdoc. reflexivity. }
  unfold classify, respond_marked, respond_default.
  destruct result; try discriminate H;
    try destruct (has_base64_marker _); exact Hrun.
Qed.

(** C2: on a server that is not shutting down, a request whose deadline
    header is absent or an integer and whose body is the JSON value [P],
    served by the handler that returns its input, is answered 200 with the
    envelope whose [body] is [P] itself. *)
Theorem echo_returns_payload
  (self : RuntimeInterface) (clk : clock) (req : request) (D : Z) (P : pyval) :
  reaches_handler self req echo D P ->
  clock_readable clk D ->
  json_ok P = true ->
  (exists t,
     invoke clk req self
     = (t, self, Done {| status := 200; json := envelope 200 P |}))
  /\ field "body" (envelope 200 P) = P
  /\ map fst (handler_calls (trace_of (invoke clk req self))) = [P].
Proof.
  intros (Hup & Hh & HD & Hj) (Hctx & ms & Hms) HP.
  assert (Hc : exists ctx,
             make_context D (request_id_of req) (at_context clk)
                          (at_start clk * 1000)%float self
             = ([], self, Done ctx)).
  { destruct (Z_lt_le_dec 0 D) as [Hpos | Hle].
    - destruct (Hctx Hpos) as (E & HE). eexists.
      apply make_context_positive; eassumption.
    - eexists. apply make_context_no_deadline. exact Hle. }
  destruct Hc as (ctx & Hc).
  split; [ | split ].
  - eexists. unfold invoke, bind, try_except, get. simpl.
    rewrite Hup, HD. simpl. rewrite Hj. simpl.
    rewrite Hc, Hh. simpl. rewrite Hms. simpl.
    rewrite (classify_serializable P self HP). reflexivity.
  - reflexivity.
  - erewrite invoke_calls; eauto. reflexivity.
Qed.

(** C8: a request whose [x-deadline-ms] header is present but is no
    integer literal never reaches the handler and never gets the 500
    envelope; on a server that is not shutting down the [ValueError] of
    line 97 leaves the view uncaught, before anything is logged. *)
Theorem malformed_deadline_escapes
  (self : RuntimeInterface) (clk : clock) (req : request) (s : string) :
  x_deadline_ms req = Some s ->
  int_of_str s = None ->
  (is_shutting_down self = false ->
   invoke clk req self = ([], self, Raised (invalid_literal s)))
  /\ handler_calls (trace_of (invoke clk req self)) = []
  /\ (forall r, outcome_of (invoke clk req self) = Done r ->
       is_shutting_down self = true /\ status r = 503).
Proof.
  intros Hs Hbad.
  assert (HD : read_deadline (x_deadline_ms req) = inl (invalid_literal s)).
  { rewrite Hs. simpl. rewrite Hbad. reflexivity. }
  destruct (is_shutting_down self) eqn:Hup.
  - rewrite (invoke_when_shutting_down clk req self Hup).
    split; [ discriminate | split; [ reflexivity | ] ].
    intros r Hr. injection Hr as <-. split; reflexivity.
  - assert (Hrun : invoke clk req self = ([], self, Raised (invalid_literal s))).
    { unfold invoke, bind, get, lift. rewrite Hup, HD. reflexivity. }
    rewrite Hrun. split; [ reflexivity | split; [ reflexivity | ] ].
    intros r Hr. discriminate Hr.
Qed.

(** C9: for a result that is not [bytes], the branch taken for a dict
    with a truthy [base64] entry and the default branch are the same
    computation, the response made of the envelope
    [{status_code: 200, body: result, logs: []}]; so [classify] is the
    default branch whatever the marker says. *)
Theorem marker_branch_is_default (result : pyval) :
  is_bytes result = false ->
  respond_marked result = respond_default result
  /\ classify result = respond_default result
  /\ respond_default result
     = jsonify (PDict [("status_code", PInt 200); ("body", result);
                       ("logs", PList [])]) 200.
Proof.
  intro H. split; [ reflexivity | split; [ | reflexivity ] ].
  unfold classify.
  destruct result; try discriminate H;
    try destruct (has_base64_marker _); reflexivity.
Qed.

End PushFacts.

Lemma remaining_time_ms_witness :
  Push.deadlines_seen
    (trace_of (Push.invoke sample_clock sample_request sample_runtime))
  = [PInt 2750].
Proof.
  apply (proj1 (remaining_time_ms sample_runtime sample_clock sample_request
                  Push.echo 3000 sample_payload
                  (conj eq_refl (conj eq_refl (conj eq_refl eq_refl)))) 250).
  - lia.
  - vm_compute. reflexivity.
Defined.

Lemma echo_returns_payload_witness :
  exists t,
    Push.invoke sample_clock sample_request sample_runtime
    = (t, sample_runtime,
       Done {| Push.status := 200;
               Push.json := Push.envelope 200 sample_payload |}).
Proof.
  apply (echo_returns_payload sample_runtime sample_clock sample_request
           3000 sample_payload).
  - repeat split.
  - split.
    + intros _. exists 250. vm_compute. reflexivity.
    + exists 500. vm_compute. reflexivity.
  - reflexivity.
Defined.

Lemma malformed_deadline_escapes_witness :
  Push.invoke sample_clock malformed_request sample_runtime
  = ([], sample_runtime, Raised (invalid_literal "soon")).
Proof.
  apply (malformed_deadline_escapes sample_runtime sample_clock
           malformed_request "soon").
  - reflexivity.
  - vm_compute. reflexivity.
  - reflexivity.
Defined.

Lemma marker_branch_is_default_witness :
  Push.classify marked_result = Push.respond_default marked_result.
Proof.
  apply (marker_branch_is_default marked_result). reflexivity.
Defined.

(** ** The poll transport *)

Section PollFacts.
Import Poll.
Variable env : environ.
Variable handler : handler_fn.

Lemma error_data_ok (error : exn) : json_ok (error_data error) = true.
Proof.
  unfold error_data. simpl.
  induction (exn_trace error) as [ | l ls IH ]; simpl in *; auto.
Qed.

Lemma post_error_run rid error w :
  post_error rid error w tt = (error_post_trace rid error w, tt, Done tt).
Proof.
  unfold post_error, try_except, bind, json_dumps, error_post_trace.
  rewrite error_data_ok. destruct w; reflexivity.
Qed.

Lemma post_response_failed rid result e :
  json_ok result = true ->
  post_response rid result (Some e) tt
  = ([HttpPost (InvocationResponse (str_of rid)) result (Some e)], tt,
     Raised (post_failure e)).
Proof.
  intro H. unfold post_response, try_except, bind, json_dumps.
  rewrite H. reflexivity.
Qed.

Lemma post_response_unserializable rid result w :
  json_ok result = false ->
  post_response rid result w tt = ([], tt, Raised (post_failure not_serializable)).
Proof.
  intro H. unfold post_response, try_except, bind, json_dumps.
  rewrite H. reflexivity.
Qed.

(** A turn of the loop that got an invocation, whatever the handler and
    the posts do. *)
Lemma serve_turn_run (t : turn) inv :
  next t = inr inv ->
  let rid := requestId inv in
  let report (error : exn) :=
    Stderr [T "Handler error: "; T (exn_msg error)]
    :: error_post_trace rid error (error_post t) in
  serve_turn env handler t tt
  = ([HttpGet NextInvocation None;
      Stdout [T "Received invocation: "; V (val_of rid)];
      HandlerCall (payload inv) (make_context env inv)]
       ++ match handler (payload inv) (make_context env inv) with
          | Raise error => report error
          | Return result =>
              trace_of (post_response rid result (response_post t) tt)
                ++ match outcome_of (post_response rid result
                                                   (response_post t) tt) with
                   | Done _ => [Stdout [T "Response posted for: ";
                                        V (val_of rid)]]
                   | Raised error => report error
                   | Pending => []
                   end
          end,
     tt, Done tt).
Proof.
  intros Hn rid report.
  assert (Hnever : forall result,
            outcome_of (post_response rid result (response_post t) tt)
            <> Pending).
  { intro result. unfold post_response, try_except, bind, json_dumps.
    destruct (json_ok result); simpl; [ | discriminate ].
    destruct (response_post t); simpl; discriminate. }
  unfold serve_turn, get_next_invocation, call_handler,
    bind, try_except, emit, ret, raise.
  rewrite Hn. fold rid.
  destruct (handler (payload inv) (make_context env inv)) as [result | error].
  - specialize (Hnever result).
    destruct (post_response rid result (response_post t) tt)
      as [[tr []] [[] | error | ]]; unfold trace_of, outcome_of; simpl.
    + reflexivity.
    + rewrite post_error_run. subst report. simpl.
      repeat rewrite <- app_assoc. reflexivity.
    + exfalso. apply Hnever. reflexivity.
  - rewrite post_error_run. reflexivity.
Qed.

(** The turn of the loop in which the handler returned [result] and the
    post of the response raised [e]. *)
Lemma serve_turn_failed_post (t : turn) inv result e :
  next t = inr inv ->
  handler (payload inv) (make_context env inv) = Return result ->
  json_ok result = true ->
  response_post t = Some e ->
  serve_turn env handler t tt
  = ([HttpGet NextInvocation None;
      Stdout [T "Received invocation: "; V (val_of (requestId inv))];
      HandlerCall (payload inv) (make_context env inv);
      HttpPost (InvocationResponse (str_of (requestId inv))) result (Some e);
      Stderr [T "Handler error: "; T (exn_msg (post_failure e))]]
       ++ error_post_trace (requestId inv) (post_failure e) (error_post t),
     tt, Done tt).
Proof.
  intros Hn Hh Hok Hw.
  rewrite (serve_turn_run t inv Hn). cbv zeta.
  rewrite Hh, Hw, (post_response_failed _ _ _ Hok). reflexivity.
Qed.

Lemma loop_cons (t : turn) (rest : list turn) tr :
  serve_turn env handler t tt = (tr, tt, Done tt) ->
  loop env handler (t :: rest) tt
  = (tr ++ trace_of (loop env handler rest tt),
     state_of (loop env handler rest tt),
     outcome_of (loop env handler rest tt)).
Proof.
  intro H.
  exact (bind_done (serve_turn env handler t) (fun _ => loop env handler rest)
                   tt tr tt tt H).
Qed.

(** C4, as the code has it: when the post of a successful result fails,
    the failure is written to the error stream as a handler error, then
    one post to the error endpoint of the same request id is made (its own
    failure is only written to the error stream); the post of the response
    is not repeated, and the loop goes on with the next fetch without
    sleeping. *)
Theorem failed_response_post_is_reported
  (t : turn) (rest : list turn) (inv : invocation) (result : pyval) (e : exn) :
  next t = inr inv ->
  handler (payload inv) (make_context env inv) = Return result ->
  json_ok result = true ->
  response_post t = Some e ->
  let rid := str_of (requestId inv) in
  let turn_trace :=
    [HttpGet NextInvocation None;
     Stdout [T "Received invocation: "; V (val_of (requestId inv))];
     HandlerCall (payload inv) (make_context env inv);
     HttpPost (InvocationResponse rid) result (Some e);
     Stderr [T "Handler error: "; T (exn_msg (post_failure e))];
     HttpPost (InvocationError rid) (error_data (post_failure e))
              (error_post t)]
      ++ match error_post t with
         | None => []
         | Some e' => [Stderr [T "Failed to post error: "; T (exn_msg e')]]
         end in
  serve_turn env handler t tt = (turn_trace, tt, Done tt)
  /\ trace_of (loop env handler (t :: rest) tt)
     = turn_trace ++ trace_of (loop env handler rest tt).
Proof.
  intros Hn Hh Hok Hw rid turn_trace.
  assert (Hrun : serve_turn env handler t tt = (turn_trace, tt, Done tt)).
  { rewrite (serve_turn_failed_post t inv result e Hn Hh Hok Hw).
    reflexivity. }
  split; [ exact Hrun | ].
  rewrite (loop_cons t rest turn_trace Hrun). reflexivity.
Qed.

End PollFacts.

Lemma failed_response_post_is_reported_witness :
  Poll.serve_turn sample_env Push.echo refused_post tt
  = ([HttpGet NextInvocation None;
      Stdout [T "Received invocation: "; V (PStr "r-1")];
      HandlerCall sample_payload
                  (Poll.make_context sample_env sample_invocation);
      HttpPost (InvocationResponse "r-1") sample_payload
               (Some connection_reset);
      Stderr [T "Handler error: ";
              T "Failed to post response: <urlopen error [Errno 104] Connection reset by peer>"];
      HttpPost (InvocationError "r-1")
               (Poll.error_data (Poll.post_failure connection_reset)) None],
     tt, Done tt).
Proof.
  exact (proj1 (failed_response_post_is_reported sample_env Push.echo
                  refused_post [] sample_invocation
                  sample_payload connection_reset
                  eq_refl eq_refl eq_refl eq_refl)).
Defined.

(** C4, as stated, fails: after the refused post of the response for
    [r-1] the loop posts to the error endpoint of [r-1]. *)
Lemma failed_response_post_not_silent :
  ~ dropped_silently "r-1"
      (trace_of (Poll.main sample_env Push.echo [refused_post] tt)).
Proof.
  intro H.
  specialize (H _ eq_refl). vm_compute in H. discriminate H.
Qed.

(** ** The stream transport *)

Section StreamFacts.
Import Stream.
Variable env : environ.
Variable handler : handler_fn.
Variable polls : list Poll.turn.

(** [send] never raises and never writes to the runtime object. *)
Lemma send_run (message : pyval) (w : option exn) (self : WebSocketRuntime) :
  send message w self = (send_trace message w self, self, Done tt).
Proof.
  unfold send, send_trace, bind, get, try_except.
  destruct (websocket self && is_connected self); [ | reflexivity ].
  destruct (json_dumps message) as [e | data]; [ reflexivity | ].
  destruct w; reflexivity.
Qed.

(** [handle_invocation] on a JSON object: it never raises either. *)
Lemma handle_invocation_run d (w : option exn) (self : WebSocketRuntime) :
  let request_id := lookup "request_id" d in
  let context := make_context env request_id
                   (lookup "invoked_function_arn" d) (lookup "trace_id" d) in
  handle_invocation env handler (PDict d) w self
  = ([Stdout [T "Received invocation: "; V request_id];
      HandlerCall (lookup "payload" d) context]
       ++ match handler (lookup "payload" d) context with
          | Return result =>
              send_trace (response_frame env request_id result) w self
                ++ [Stdout [T "Response posted for: "; V request_id]]
          | Raise error =>
              Stderr [T "Handler error: "; T (exn_msg error)]
              :: send_trace (error_frame request_id error) w self
          end,
     self, Done tt).
Proof.
  intros request_id context.
  unfold handle_invocation, call_handler, bind, try_except. simpl.
  fold request_id. fold context.
  destruct (handler (lookup "payload" d) context) as [result | error]; simpl.
  - rewrite send_run. simpl. reflexivity.
  - rewrite send_run. reflexivity.
Qed.

Lemma json_dumps_inr (v data : pyval) : json_dumps v = inr data -> data = v.
Proof.
  unfold json_dumps. destruct (json_ok v); intro H;
    [ injection H as <-; reflexivity | discriminate H ].
Qed.

(** An invocation frame whose handler returns is handled as one turn of
    the message loop, which then goes on with the next frame. *)
Lemma on_frames_invocation d w self rest :
  lookup "type" d = PStr "invocation" ->
  let run := handle_invocation env handler (PDict d) w self in
  on_frames env handler ({| loads := inr (PDict d); wire := w |} :: rest) self
  = (trace_of run ++ trace_of (on_frames env handler rest self),
     state_of (on_frames env handler rest self),
     outcome_of (on_frames env handler rest self)).
Proof.
  intros Hty run.
  assert (Hframe : on_frame env handler {| loads := inr (PDict d); wire := w |} self
                   = (trace_of run, self, Done tt)).
  { unfold on_frame. simpl. apply try_done.
    unfold handle_message.
    erewrite bind_done by (simpl; reflexivity).
    rewrite Hty. simpl. subst run.
    rewrite handle_invocation_run. reflexivity. }
  exact (bind_done (on_frame env handler {| loads := inr (PDict d); wire := w |})
                   (fun _ => on_frames env handler rest) self _ self tt Hframe).
Qed.

(** C10: when the socket is not connected or [websocket.send] raises,
    [send] writes one line to the error stream and returns; so
    [handle_invocation], whose handler returned [result], finishes without
    raising and without a second call of [websocket.send]: the response
    frame is the only frame tried, no error frame follows, nothing of a
    reconnection happens, the runtime object is unchanged, and the message
    loop goes on with the next frame. *)
Theorem undelivered_response_is_dropped
  d (w : option exn) (self : WebSocketRuntime) (result : pyval)
  (rest : list inbound) :
  let request_id := lookup "request_id" d in
  let context := make_context env request_id
                   (lookup "invoked_function_arn" d) (lookup "trace_id" d) in
  let frame := response_frame env request_id result in
  let run := handle_invocation env handler (PDict d) w self in
  lookup "type" d = PStr "invocation" ->
  handler (lookup "payload" d) context = Return result ->
  websocket self && is_connected self = false \/ w <> None ->
  (exists line,
     send frame w self = (send_trace frame w self, self, Done tt)
     /\ last (send_trace frame w self) (Stdout []) = Stderr line)
  /\ run = ([Stdout [T "Received invocation: "; V request_id];
             HandlerCall (lookup "payload" d) context]
              ++ send_trace frame w self
              ++ [Stdout [T "Response posted for: "; V request_id]],
            self, Done tt)
  /\ (forall f o, In (f, o) (ws_sends (trace_of run)) ->
        f = frame /\ o = w /\ o <> None)
  /\ (List.length (ws_sends (trace_of run)) <= 1)%nat
  /\ reconnects (trace_of run) = []
  /\ on_frames env handler ({| loads := inr (PDict d); wire := w |} :: rest) self
     = (trace_of run ++ trace_of (on_frames env handler rest self),
        state_of (on_frames env handler rest self),
        outcome_of (on_frames env handler rest self)).
Proof.
  intros request_id context frame run Hty Hh Hbad.
  assert (Hrun : run = ([Stdout [T "Received invocation: "; V request_id];
                         HandlerCall (lookup "payload" d) context]
                          ++ send_trace frame w self
                          ++ [Stdout [T "Response posted for: "; V request_id]],
                        self, Done tt)).
  { subst run. rewrite handle_invocation_run.
    fold request_id. fold context. rewrite Hh. reflexivity. }
  split; [ | split; [ exact Hrun | ] ].
  - rewrite send_run. unfold send_trace.
    destruct (websocket self && is_connected self).
    + destruct Hbad as [Hc | Hw]; [ discriminate Hc | ].
      destruct (json_dumps frame) as [e | data]; [ eexists; split; reflexivity | ].
      destruct w as [e | ]; [ eexists; split; reflexivity | ].
      exfalso. apply Hw. reflexivity.
    + eexists; split; reflexivity.
  - split; [ | split; [ | split ] ].
    + rewrite Hrun. unfold send_trace, trace_of. simpl.
      destruct (websocket self && is_connected self); simpl;
        [ | intros f o [] ].
      destruct Hbad as [Hc | Hw]; [ discriminate Hc | ].
      destruct (json_dumps frame) as [e | data] eqn:Hd; simpl;
        [ intros f o [] | ].
      apply json_dumps_inr in Hd. subst data.
      destruct w as [e | ]; simpl.
      * intros f o [Heq | []]. injection Heq as <- <-.
        repeat split. discriminate.
      * exfalso. apply Hw. reflexivity.
    + rewrite Hrun. unfold send_trace, trace_of. simpl.
      destruct (websocket self && is_connected self); simpl; [ | lia ].
      destruct (json_dumps frame); simpl; [ lia | ].
      destruct w; simpl; lia.
    + rewrite Hrun. unfold send_trace, trace_of. simpl.
      destruct (websocket self && is_connected self); simpl; [ | reflexivity ].
      destruct (json_dumps frame); simpl; [ reflexivity | ].
      destruct w; reflexivity.
    + apply on_frames_invocation. exact Hty.
Qed.

(** [import bootstrap] runs the module under the name [bootstrap], so the
    guard of its last lines keeps [main] from running. *)
Lemma import_runs_no_main :
  Poll.module_body env handler "bootstrap" polls = ret tt.
Proof. reflexivity. Qed.

Lemma fallback_run (self : WebSocketRuntime) :
  fallback_to_http env handler polls self
  = ([Stdout [T "Falling back to HTTP runtime..."]; Import "bootstrap"],
     self, Done tt).
Proof. reflexivity. Qed.

(** *** Every sleep lasts the initial delay *)

Lemma sleeps_app (a b : list event) : sleeps (a ++ b) = sleeps a ++ sleeps b.
Proof.
  induction a as [ | ev a IH ]; [ reflexivity | ].
  destruct ev; simpl; rewrite IH; reflexivity.
Qed.

Lemma soft_ret {A} (a : A) : soft (ret a).
Proof. intro s. split; reflexivity. Qed.

Lemma soft_raise {A} (e : exn) : soft (@raise _ A e).
Proof. intro s. split; reflexivity. Qed.

Lemma soft_get : soft get.
Proof. intro s. split; reflexivity. Qed.

Lemma soft_lift {A} (r : exn + A) : soft (lift r).
Proof. destruct r; intro s; split; reflexivity. Qed.

Lemma soft_emit (ev : event) : sleeps [ev] = [] -> soft (emit ev).
Proof. intros H s. split; [ exact H | reflexivity ]. Qed.

Lemma soft_modify (f : WebSocketRuntime -> WebSocketRuntime) :
  (forall s, reconnect_delay (f s) = reconnect_delay s) -> soft (modify f).
Proof. intros H s. split; [ reflexivity | apply H ]. Qed.

Lemma soft_bind {A B} (m : M WebSocketRuntime A) (k : A -> M WebSocketRuntime B) :
  soft m -> (forall a, soft (k a)) -> soft (bind m k).
Proof.
  intros Hm Hk s. destruct (Hm s) as [Hs Hd]. unfold bind.
  destruct (m s) as [[t s'] [a | e | ]];
    unfold trace_of, state_of in *; simpl in *; auto.
  destruct (Hk a s') as [Hs' Hd']. destruct (k a s') as [[t' s''] r].
  unfold trace_of, state_of in *; simpl in *.
  rewrite sleeps_app, Hs, Hs'. split; [ reflexivity | congruence ].
Qed.

Lemma soft_try_except {A} (m : M WebSocketRuntime A) h :
  soft m -> (forall e, soft (h e)) -> soft (try_except m h).
Proof.
  intros Hm Hh s. destruct (Hm s) as [Hs Hd]. unfold try_except.
  destruct (m s) as [[t s'] [a | e | ]];
    unfold trace_of, state_of in *; simpl in *; auto.
  destruct (Hh e s') as [Hs' Hd']. destruct (h e s') as [[t' s''] r].
  unfold trace_of, state_of in *; simpl in *.
  rewrite sleeps_app, Hs, Hs'. split; [ reflexivity | congruence ].
Qed.

Lemma never_raises_bind {A B} (m : M WebSocketRuntime A)
                        (k : A -> M WebSocketRuntime B) :
  never_raises m -> (forall a, never_raises (k a)) -> never_raises (bind m k).
Proof.
  intros Hm Hk s e. specialize (Hm s). unfold bind.
  destruct (m s) as [[t s'] [a | e' | ]]; unfold outcome_of in *; simpl in *.
  - specialize (Hk a s' e). destruct (k a s') as [[t' s''] r]. exact Hk.
  - exfalso. apply (Hm e'). reflexivity.
  - discriminate.
Qed.

Lemma never_raises_try_except {A} (m : M WebSocketRuntime A) h :
  (forall e, never_raises (h e)) -> never_raises (try_except m h).
Proof.
  intros Hh s e. unfold try_except.
  destruct (m s) as [[t s'] [a | e' | ]]; unfold outcome_of; simpl;
    try discriminate.
  specialize (Hh e' s' e). destruct (h e' s') as [[t' s''] r]. exact Hh.
Qed.

Lemma never_raises_ret {A} (a : A) : never_raises (ret a).
Proof. intros s e. discriminate. Qed.

Lemma never_raises_emit (ev : event) : never_raises (emit ev).
Proof. intros s e. discriminate. Qed.

Lemma never_raises_modify f : never_raises (modify f).
Proof. intros s e. discriminate. Qed.

Lemma never_raises_get : never_raises get.
Proof. intros s e. discriminate. Qed.

Lemma send_gentle message w : gentle (send message w).
Proof.
  split; intro s; rewrite send_run.
  - split; [ | reflexivity ]. unfold send_trace, trace_of. simpl.
    destruct (websocket s && is_connected s); [ | reflexivity ].
    destruct (json_dumps message); [ reflexivity | ].
    destruct w; reflexivity.
  - intro e. discriminate.
Qed.

Create HintDb soft.
Hint Resolve soft_ret soft_raise soft_get soft_lift never_raises_ret
  never_raises_emit never_raises_modify never_raises_get : soft.

Ltac soft :=
  repeat first
    [ progress auto with soft
    | apply soft_emit; reflexivity
    | apply soft_modify; intro; reflexivity
    | apply send_gentle
    | apply soft_bind; [ | intro ]
    | apply soft_try_except; [ | intro ]
    | apply never_raises_bind; [ | intro ]
    | apply never_raises_try_except; intro
    | match goal with
      | |- soft (if ?b then _ else _) => destruct b
      | |- soft (match ?x with _ => _ end) => destruct x
      | |- never_raises (if ?b then _ else _) => destruct b
      | |- never_raises (match ?x with _ => _ end) => destruct x
      end ].

Lemma handle_invocation_soft message w :
  soft (handle_invocation env handler message w).
Proof. unfold handle_invocation, call_handler. soft. Qed.

Lemma handle_message_soft message w :
  soft (handle_message env handler message w).
Proof.
  unfold handle_message.
  apply soft_bind; [ auto with soft | intro ty ].
  destruct (is_str ty "invocation"); [ apply handle_invocation_soft | ].
  soft.
Qed.

Lemma on_frame_gentle f : gentle (on_frame env handler f).
Proof.
  unfold on_frame. split.
  - destruct (loads f); [ soft | ].
    apply soft_try_except; [ apply handle_message_soft | intro; soft ].
  - destruct (loads f); soft.
Qed.

Lemma gentle_bind {A B} (m : M WebSocketRuntime A)
                  (k : A -> M WebSocketRuntime B) :
  gentle m -> (forall a, gentle (k a)) -> gentle (bind m k).
Proof.
  intros [Hs Hn] Hk. split.
  - apply soft_bind; [ exact Hs | intro a; apply (Hk a) ].
  - apply never_raises_bind; [ exact Hn | intro a; apply (Hk a) ].
Qed.

Lemma on_frames_gentle fs : gentle (on_frames env handler fs).
Proof.
  induction fs as [ | f fs IH ]; simpl.
  - split; soft.
  - apply gentle_bind; [ apply on_frame_gentle | intros _; exact IH ].
Qed.

Lemma shutdown_gentle : gentle shutdown.
Proof. unfold shutdown. split; soft. Qed.

Lemma signalled_gentle sig : gentle (signalled sig).
Proof.
  unfold signalled. destruct sig; [ | split; soft ].
  apply gentle_bind; [ split; soft | intros _; apply shutdown_gentle ].
Qed.

Lemma register_gentle w : gentle (register env w).
Proof. unfold register. apply send_gentle. Qed.

Lemma steady_ret {A} (a : A) : steady (ret a).
Proof. intro s. split; [ constructor | discriminate ]. Qed.

Lemma steady_pending {A} : steady (@pending _ A).
Proof. intro s. split; [ constructor | discriminate ]. Qed.

(** What never sleeps may come first. *)
Lemma steady_after {A B} (m : M WebSocketRuntime A)
                   (k : A -> M WebSocketRuntime B) :
  gentle m -> (forall a, steady (k a)) -> steady (bind m k).
Proof.
  intros [Hs Hn] Hk s. destruct (Hs s) as [Hsl Hd]. specialize (Hn s).
  unfold bind.
  destruct (m s) as [[t s'] [a | e | ]];
    unfold trace_of, state_of, outcome_of in *; simpl in *.
  - destruct (Hk a s') as [Hf Hr]. destruct (k a s') as [[t' s''] r].
    unfold trace_of, outcome_of in *; simpl in *.
    rewrite sleeps_app, Hsl, <- Hd. split; assumption.
  - exfalso. apply (Hn e). reflexivity.
  - rewrite Hsl. split; [ constructor | discriminate ].
Qed.

(** A [try] around what never raises. *)
Lemma steady_try_except {A} (m : M WebSocketRuntime A) h :
  steady m -> steady (try_except m h).
Proof.
  intros Hm s. destruct (Hm s) as [Hf Hr]. unfold try_except.
  destruct (m s) as [[t s'] [a | e | ]];
    unfold trace_of, outcome_of in *; simpl in *.
  - split; assumption.
  - exfalso. apply (Hr e). reflexivity.
  - split; assumption.
Qed.

(** [handle_reconnect] sleeps the delay it finds; the doubling comes
    after the [connect] it awaits. *)
Lemma handle_reconnect_steady (k : M WebSocketRuntime unit) :
  steady k -> steady (handle_reconnect env handler polls k).
Proof.
  intros Hk s. unfold handle_reconnect, bind, get, modify, emit. simpl.
  destruct ((reconnect_attempts s <? max_reconnect_attempts s)
            && negb (should_stop s)).
  - destruct (Hk (set_reconnect_attempts (reconnect_attempts s + 1) s))
      as [Hf Hr].
    destruct (k (set_reconnect_attempts (reconnect_attempts s + 1) s))
      as [[t s'] [[] | e | ]];
      unfold trace_of, outcome_of in *; simpl in *.
    + rewrite app_nil_r. split; [ constructor; [ reflexivity | exact Hf ] | ].
      discriminate.
    + exfalso. apply (Hr e). reflexivity.
    + split; [ constructor; [ reflexivity | exact Hf ] | discriminate ].
  - split; [ constructor | discriminate ].
Qed.

Lemma reconnect_after_drop (k : M WebSocketRuntime unit) (ev : event) :
  sleeps [ev] = [] ->
  steady k ->
  steady (emit ev ;; modify (set_is_connected false) ;;
          handle_reconnect env handler polls k).
Proof.
  intros Hev Hk.
  apply steady_after; [ split; soft; apply soft_emit; exact Hev | intros _ ].
  apply steady_after; [ split; soft | intros _ ].
  apply handle_reconnect_steady. exact Hk.
Qed.

Lemma message_loop_steady sess (k : M WebSocketRuntime unit) :
  steady k -> steady (message_loop env handler polls sess k).
Proof.
  intro Hk. unfold message_loop.
  apply steady_after; [ apply on_frames_gentle | intros _ ].
  apply steady_after; [ apply signalled_gentle | intros _ ].
  destruct (ends sess).
  - apply steady_ret.
  - apply reconnect_after_drop; [ reflexivity | exact Hk ].
  - apply reconnect_after_drop; [ reflexivity | exact Hk ].
Qed.

(** In every run of [connect], every delay slept is the [reconnect_delay]
    the run started with, and no exception leaves [connect]. *)
Lemma connect_steady (script : list attempt) :
  steady (connect env handler polls script).
Proof.
  induction script as [ | a rest IH ]; simpl.
  - apply steady_after; [ split; soft | intros _; apply steady_pending ].
  - apply steady_after; [ split; soft | intros _ ].
    apply steady_after; [ apply signalled_gentle | intros _ ].
    destruct (opened a) as [e | sess].
    + intro s.
      rewrite (try_raised _ _ s [WsConnect (Some e)] s e eq_refl).
      assert (Hh : steady
                (emit (Stderr [T "WebSocket connection failed: ";
                               T (exn_msg e)]) ;;
                 modify (set_is_connected false) ;;
                 handle_reconnect env handler polls
                   (connect env handler polls rest))).
      { apply reconnect_after_drop; [ reflexivity | exact IH ]. }
      destruct (Hh s) as [Hf Hr].
      unfold trace_of at 1, outcome_of at 1. simpl. split; assumption.
    + apply steady_try_except.
      apply steady_after; [ split; soft | intros _ ].
      apply steady_after; [ split; soft | intros _ ].
      apply steady_after; [ split; soft | intros _ ].
      apply steady_after; [ split; soft | intros _ ].
      apply steady_after; [ split; soft | intros _ ].
      apply steady_after; [ apply register_gentle | intros _ ].
      apply message_loop_steady. exact IH.
Qed.

(** From [__init__] on, every delay the transport ever sleeps is 1.0 s. *)
Lemma every_sleep_is_one_second (script : list attempt) :
  Forall (fun d => d = 1.0%float)
         (sleeps (trace_of (main env handler polls script init))).
Proof.
  assert (H : steady (main env handler polls script)).
  { unfold main. apply steady_after; [ split; soft | intros _ ].
    apply steady_try_except. apply connect_steady. }
  exact (proj1 (H init)).
Qed.

Lemma handle_reconnect_exhausted k (self : WebSocketRuntime) :
  (reconnect_attempts self <? max_reconnect_attempts self)
    && negb (should_stop self) = false ->
  handle_reconnect env handler polls k self
  = ([Stderr [T "Max reconnection attempts reached, falling back to HTTP"];
      Stdout [T "Falling back to HTTP runtime..."];
      Import "bootstrap"], self, Done tt).
Proof.
  intro H. unfold handle_reconnect, bind, get. rewrite H. reflexivity.
Qed.

(** C5, on the code: when the attempts are used up or a shutdown was
    requested, [handle_reconnect] prints its two lines, imports the poll
    module and returns to its caller.  The import runs the module under
    the name [bootstrap], and the guard of its last lines starts [main]
    for the name [__main__] only: whatever the Runtime API would answer to
    a poll loop, no request of the poll loop is ever made and no
    invocation is served.  A run of eleven refused connections ends with
    the import, and [connect] returns. *)
Theorem fallback_starts_no_poll_loop (e : exn) :
  let run := main env handler polls (repeat (refused e) 11) init in
  (forall k self,
     (reconnect_attempts self <? max_reconnect_attempts self)
       && negb (should_stop self) = false ->
     handle_reconnect env handler polls k self
     = ([Stderr [T "Max reconnection attempts reached, falling back to HTTP"];
         Stdout [T "Falling back to HTTP runtime..."];
         Import "bootstrap"], self, Done tt))
  /\ Poll.module_body env handler "bootstrap" polls = ret tt
  /\ Poll.module_body env handler "__main__" polls
     = Poll.main env handler polls
  /\ last (trace_of run) (Stdout []) = Import "bootstrap"
  /\ http_requests (trace_of run) = []
  /\ handler_calls (trace_of run) = []
  /\ outcome_of run = Done tt.
Proof.
  intro run.
  split; [ exact handle_reconnect_exhausted | ].
  split; [ exact import_runs_no_main | ].
  repeat split; vm_compute; reflexivity.
Qed.

(** C1, on the code: whatever happens on the network, every delay the
    transport sleeps is the initial 1.0 s; in the run where every
    connection attempt fails, the ten delays slept are 1, 1, 1, ... and not
    1, 2, 4, 8, 16, 30, ...  The doubling of line 174 only runs once the
    nested [connect] has returned, that is after the fallback, when
    nothing sleeps any more (it leaves the delay at 30.0).  The fallback
    comes after ten reconnection attempts, eleven calls of
    [websockets.connect] in all, and is the last thing the run does. *)
Theorem consecutive_failures_sleep_initial_delay (e : exn) :
  let run := main env handler polls (repeat (refused e) 11) init in
  (forall script,
     Forall (fun d => d = 1.0%float)
            (sleeps (trace_of (main env handler polls script init))))
  /\ sleeps (trace_of run) = repeat 1.0%float 10
  /\ sleeps (trace_of run)
     <> [1; 2; 4; 8; 16; 30; 30; 30; 30; 30]%float
  /\ List.length (filter (fun ev => match ev with
                                    | WsConnect _ => true
                                    | _ => false
                                    end) (trace_of run)) = 11%nat
  /\ last (trace_of run) (Stdout []) = Import "bootstrap"
  /\ reconnect_attempts (state_of run) = 10
  /\ reconnect_delay (state_of run) = 30.0%float.
Proof.
  intro run.
  assert (Hs : sleeps (trace_of run) = repeat 1.0%float 10).
  { vm_compute. reflexivity. }
  split; [ exact every_sleep_is_one_second | ].
  split; [ exact Hs | ].
  split.
  { rewrite Hs. intro H.
    apply (f_equal (fun l => match l with
                             | _ :: x :: _ => PrimFloat.eqb x 1
                             | _ => false
                             end)) in H.
    vm_compute in H. discriminate H. }
  repeat split; vm_compute; reflexivity.
Qed.

End StreamFacts.

Lemma undelivered_response_is_dropped_witness :
  Stream.handle_invocation sample_env Push.echo (PDict sample_frame)
                           (Some socket_gone) connected
  = ([Stdout [T "Received invocation: "; V (PStr "r-1")];
      HandlerCall sample_payload
        (Stream.make_context sample_env (PStr "r-1") PNone PNone);
      WsSend (Stream.response_frame sample_env (PStr "r-1") sample_payload)
             (Some socket_gone);
      Stderr [T "Failed to send WebSocket message: ";
              T "no close frame received or sent"];
      Stdout [T "Response posted for: "; V (PStr "r-1")]],
     connected, Done tt).
Proof.
  apply (undelivered_response_is_dropped sample_env Push.echo sample_frame
           (Some socket_gone) connected sample_payload []).
  - reflexivity.
  - reflexivity.
  - right. discriminate.
Defined.

(** C3, on the code: the push transport tags a [bytes] result (see
    [Push.respond_binary]), the other two do not.  For the handler that
    returns the bytes [bs], the poll loop posts no response: [json.dumps]
    raises, and the loop reports a handler error to the error endpoint.
    The stream transport sends no frame at all: [send] catches the
    [TypeError] of [json.dumps] and only writes to the error stream. *)
Theorem binary_result_not_encoded
  (env : environ) (bs : list Byte.byte)
  (inv : Poll.invocation) (w1 w2 : option exn)
  (d : list (string * pyval)) (w : option exn) (self : Stream.WebSocketRuntime) :
  let h : handler_fn := fun _ _ => Return (PBytes bs) in
  let refusal := Poll.post_failure not_serializable in
  let request_id := lookup "request_id" d in
  Poll.serve_turn env h
    {| Poll.next := inr inv; Poll.response_post := w1; Poll.error_post := w2 |} tt
  = ([HttpGet NextInvocation None;
      Stdout [T "Received invocation: "; V (val_of (Poll.requestId inv))];
      HandlerCall (Poll.payload inv) (Poll.make_context env inv);
      Stderr [T "Handler error: ";
              T "Failed to post response: Object of type bytes is not JSON serializable"]]
       ++ Poll.error_post_trace (Poll.requestId inv) refusal w2,
     tt, Done tt)
  /\ Stream.handle_invocation env h (PDict d) w self
     = ([Stdout [T "Received invocation: "; V request_id];
         HandlerCall (lookup "payload" d)
           (Stream.make_context env request_id
              (lookup "invoked_function_arn" d) (lookup "trace_id" d));
         Stderr (if Stream.websocket self && Stream.is_connected self
                 then [T "Failed to send WebSocket message: ";
                       T "Object of type bytes is not JSON serializable"]
                 else [T "WebSocket not connected, cannot send message"]);
         Stdout [T "Response posted for: "; V request_id]],
        self, Done tt)
  /\ Stream.ws_sends (trace_of (Stream.handle_invocation env h (PDict d) w self))
     = [].
Proof.
  intros h refusal request_id.
  assert (Hstream :
    Stream.handle_invocation env h (PDict d) w self
    = ([Stdout [T "Received invocation: "; V request_id];
        HandlerCall (lookup "payload" d)
          (Stream.make_context env request_id
             (lookup "invoked_function_arn" d) (lookup "trace_id" d));
        Stderr (if Stream.websocket self && Stream.is_connected self
                then [T "Failed to send WebSocket message: ";
                      T "Object of type bytes is not JSON serializable"]
                else [T "WebSocket not connected, cannot send message"]);
        Stdout [T "Response posted for: "; V request_id]],
       self, Done tt)).
  { assert (Hd : json_dumps (Stream.response_frame env request_id (PBytes bs))
                  = inl not_serializable).
    { unfold json_dumps. simpl. destruct (json_ok request_id); reflexivity. }
    rewrite handle_invocation_run. fold request_id. unfold h.
    unfold Stream.send_trace. rewrite Hd.
    destruct (Stream.websocket self && Stream.is_connected self);
      reflexivity. }
  split; [ | split ].
  - rewrite (serve_turn_run env h
               {| Poll.next := inr inv; Poll.response_post := w1;
                  Poll.error_post := w2 |} inv eq_refl).
    cbv zeta. unfold h. cbn [Poll.response_post Poll.error_post].
    rewrite (post_response_unserializable _ (PBytes bs) w1 eq_refl).
    reflexivity.
  - exact Hstream.
  - rewrite Hstream. reflexivity.
Qed.

(** * Further properties

    What the rest of the three files does: loading the handler, the
    failure paths of [/invoke], the turns of the poll loop, and the frames
    and sessions of the stream transport. *)

(** ** Computations that settle *)

Section Settles.
Context {S : Type}.

Lemma settles_ret {A} (a : A) : settles (@ret S A a).
Proof. intro s. discriminate. Qed.

Lemma settles_raise {A} (e : exn) : settles (@raise S A e).
Proof. intro s. discriminate. Qed.

Lemma settles_emit (ev : event) : settles (@emit S ev).
Proof. intro s. discriminate. Qed.

Lemma settles_get : settles (@get S).
Proof. intro s. discriminate. Qed.

Lemma settles_modify (f : S -> S) : settles (modify f).
Proof. intro s. discriminate. Qed.

Lemma settles_lift {A} (r : exn + A) : settles (@lift S A r).
Proof. destruct r; intro s; discriminate. Qed.

Lemma settles_bind {A B} (m : M S A) (k : A -> M S B) :
  settles m -> (forall a, settles (k a)) -> settles (bind m k).
Proof.
  intros Hm Hk s. specialize (Hm s). unfold bind.
  destruct (m s) as [[t s'] [a | e | ]]; unfold outcome_of in *; simpl in *.
  - specialize (Hk a s'). destruct (k a s') as [[t' s''] r]. exact Hk.
  - discriminate.
  - exfalso. apply Hm. reflexivity.
Qed.

Lemma settles_try_except {A} (m : M S A) (h : exn -> M S A) :
  settles m -> (forall e, settles (h e)) -> settles (try_except m h).
Proof.
  intros Hm Hh s. specialize (Hm s). unfold try_except.
  destruct (m s) as [[t s'] [a | e | ]]; unfold outcome_of in *; simpl in *.
  - discriminate.
  - specialize (Hh e s'). destruct (h e s') as [[t' s''] r]. exact Hh.
  - exact Hm.
Qed.


Lemma answers_bind {A B} (m : M S A) (k : A -> M S B) :
  answers m -> (forall a, answers (k a)) -> answers (bind m k).
Proof.
  intros Hm Hk s. destruct (Hm s) as [a Ha]. unfold bind.
  destruct (m s) as [[t s'] [a' | e | ]]; unfold outcome_of in *; simpl in *;
    try discriminate Ha.
  destruct (Hk a' s') as [b Hb]. destruct (k a' s') as [[t' s''] r].
  exists b. exact Hb.
Qed.

Lemma answers_ret {A} (a : A) : answers (@ret S A a).
Proof. intro s. exists a. reflexivity. Qed.

Lemma answers_emit (ev : event) : answers (@emit S ev).
Proof. intro s. exists tt. reflexivity. Qed.

End Settles.

Create HintDb settles.
#[export] Hint Resolve settles_ret settles_raise settles_emit settles_get
  settles_modify settles_lift answers_ret answers_emit : settles.

Ltac settles :=
  repeat first
    [ progress auto with settles
    | apply settles_bind; [ | intro ]
    | apply settles_try_except; [ | intro ]
    | match goal with
      | |- settles (if ?b then _ else _) => destruct b
      | |- settles (match ?x with _ => _ end) => destruct x
      end ].

(** ** The push transport: failure paths and invariants *)

Section PushMore.
Import Push.

(** [invoke] is its guard, its header and its [try] statement. *)
Lemma invoke_unfold clk req self :
  invoke clk req self
  = (self' <- get ;;
     if is_shutting_down self' then jsonify unavailable 503
     else
       deadline_ms <- lift (read_deadline (x_deadline_ms req)) ;;
       log "info" "Function execution started"
           [("requestId", PStr (request_id_of req));
            ("deadlineMs", PInt deadline_ms)] ;;
       try_except (try_block (handler self') clk req deadline_ms)
                  (except_block clk req)) self.
Proof. reflexivity. Qed.

Lemma exn_trace_ok (l : list string) : forallb json_ok (map PStr l) = true.
Proof. induction l as [ | x l IH ]; simpl; auto. Qed.

Lemma failure_envelope_ok (e : exn) :
  json_dumps (envelope 500 (failure_body e)) = inr (envelope 500 (failure_body e)).
Proof.
  unfold json_dumps. simpl. rewrite exn_trace_ok. reflexivity.
Qed.

Lemma except_block_run clk req e ms self :
  elapsed_ms (at_failed clk) (at_start clk * 1000)%float = inr ms ->
  except_block clk req e self
  = ([failed_record req ms e], self,
     Done {| status := 500; json := envelope 500 (failure_body e) |}).
Proof.
  intro H. unfold except_block, bind, jsonify. rewrite H. simpl.
  rewrite failure_envelope_ok. reflexivity.
Qed.

(** A request whose [try] block raises [e] is answered with the 500
    envelope of [e]. *)
Lemma invoke_failed self clk req D t e ms :
  is_shutting_down self = false ->
  read_deadline (x_deadline_ms req) = inr D ->
  try_block (handler self) clk req D self = (t, self, Raised e) ->
  elapsed_ms (at_failed clk) (at_start clk * 1000)%float = inr ms ->
  invoke clk req self
  = (started_record req D :: t ++ [failed_record req ms e], self,
     Done {| status := 500; json := envelope 500 (failure_body e) |}).
Proof.
  intros Hup HD Hbody Hms. rewrite invoke_unfold.
  unfold bind at 1. unfold get. cbv iota beta. rewrite Hup, HD.
  unfold bind at 1. unfold lift, ret. cbv iota beta.
  unfold bind at 1. rewrite log_run. cbv iota beta.
  rewrite (try_raised _ _ self t self e Hbody).
  rewrite (except_block_run clk req e ms self Hms).
  reflexivity.
Qed.

Lemma invoke_succeeded self clk req D t r :
  is_shutting_down self = false ->
  read_deadline (x_deadline_ms req) = inr D ->
  try_block (handler self) clk req D self = (t, self, Done r) ->
  invoke clk req self = (started_record req D :: t, self, Done r).
Proof.
  intros Hup HD Hbody. rewrite invoke_unfold.
  unfold bind at 1. unfold get. cbv iota beta. rewrite Hup, HD.
  unfold bind at 1. unfold lift, ret. cbv iota beta.
  unfold bind at 1. rewrite log_run. cbv iota beta.
  rewrite (try_done _ _ self t self r Hbody). reflexivity.
Qed.

Lemma make_context_runs D rid clk self :
  (0 < D -> exists E,
      elapsed_ms (at_context clk) (at_start clk * 1000)%float = inr E) ->
  exists ctx,
    make_context D rid (at_context clk) (at_start clk * 1000)%float self
    = ([], self, Done ctx).
Proof.
  intro H. destruct (Z_lt_le_dec 0 D) as [Hpos | Hle].
  - destruct (H Hpos) as (E & HE). eexists.
    apply make_context_positive; eassumption.
  - eexists. apply make_context_no_deadline. exact Hle.
Qed.

(** The [try] block from the handler call on, once the body is parsed
    and the context built. *)
Lemma try_block_called f clk req D event ctx self :
  get_json req = inr event ->
  make_context D (request_id_of req) (at_context clk)
               (at_start clk * 1000)%float self = ([], self, Done ctx) ->
  try_block (Some f) clk req D self
  = match f event ctx with
    | Raise e => ([HandlerCall event ctx], self, Raised e)
    | Return result =>
        match elapsed_ms (at_completed clk) (at_start clk * 1000)%float with
        | inl e => ([HandlerCall event ctx], self, Raised e)
        | inr ms =>
            (HandlerCall event ctx
             :: Log (PDict [("level", PStr "INFO");
                            ("message",
                             PStr "Function execution completed successfully");
                            ("requestId", PStr (request_id_of req));
                            ("executionTimeMs", PInt ms)])
             :: trace_of (classify result self),
             self, outcome_of (classify result self))
        end
    end.
Proof.
  intros Hj Hctx. unfold try_block.
  unfold bind at 1. rewrite Hj. unfold lift, ret. cbv iota beta.
  unfold bind at 1. rewrite Hctx. cbv iota beta.
  unfold call_handler, bind, emit, ret, raise. simpl.
  destruct (f event ctx) as [result | e]; [ | reflexivity ].
  destruct (elapsed_ms (at_completed clk) _) as [e | ms]; [ reflexivity | ].
  pose proof (classify_keeps result self) as Hk.
  destruct (classify result self) as [[t s'] r].
  unfold state_of in Hk. simpl in Hk. subst s'. reflexivity.
Qed.


(** X2.  A body that [request.get_json()] rejects is answered 500 with
    the envelope of that exception, and the handler is not called. *)
Theorem unparsable_body_is_enveloped
  (self : RuntimeInterface) (clk : clock) (req : request)
  (D : Z) (e : exn) (ms : Z) :
  is_shutting_down self = false ->
  read_deadline (x_deadline_ms req) = inr D ->
  get_json req = inl e ->
  elapsed_ms (at_failed clk) (at_start clk * 1000)%float = inr ms ->
  invoke clk req self
  = ([started_record req D; failed_record req ms e], self,
     Done {| status := 500; json := envelope 500 (failure_body e) |}).
Proof.
  intros Hup HD Hj Hms.
  apply (invoke_failed self clk req D [] e ms Hup HD); [ | exact Hms ].
  unfold try_block. unfold bind at 1. rewrite Hj. reflexivity.
Qed.

(** X3.  A handler that returns [bytes] is answered 200 with the body
    [{base64: True, data: ...}], the data being the base64 text of the
    bytes. *)
Theorem binary_result_is_tagged
  (self : RuntimeInterface) (clk : clock) (req : request)
  (f : handler_fn) (D : Z) (event : pyval) (bs : list Byte.byte) :
  reaches_handler self req f D event ->
  (forall ctx, f event ctx = Return (PBytes bs)) ->
  clock_readable clk D ->
  exists t,
    invoke clk req self
    = (t, self,
       Done {| status := 200;
               json := envelope 200
                         (PDict [("base64", PBool true);
                                 ("data", PStr (b64encode bs))]) |}).
Proof.
  intros (Hup & Hh & HD & Hj) Hf (Hctx & ms & Hms).
  destruct (make_context_runs D (request_id_of req) clk self Hctx)
    as (ctx & Hc).
  eexists.
  eapply invoke_succeeded; [ exact Hup | exact HD | ].
  rewrite Hh, (try_block_called f clk req D event ctx self Hj Hc), Hf, Hms.
  reflexivity.
Qed.

(** X4.  A handler whose result is not [bytes] itself but cannot be
    serialised (bytes inside a list or a dict) has returned, and is logged
    as completed, yet the request is answered 500 with the [TypeError] of
    [jsonify]. *)
Theorem unserialisable_result_is_failure
  (self : RuntimeInterface) (clk : clock) (req : request)
  (f : handler_fn) (D : Z) (event result : pyval) (ms : Z) :
  reaches_handler self req f D event ->
  (forall ctx, f event ctx = Return result) ->
  is_bytes result = false ->
  json_ok result = false ->
  clock_readable clk D ->
  elapsed_ms (at_failed clk) (at_start clk * 1000)%float = inr ms ->
  exists t,
    invoke clk req self
    = (t, self,
       Done {| status := 500;
               json := envelope 500 (failure_body not_serializable) |})
    /\ List.length (handler_calls t) = 1%nat.
Proof.
  intros (Hup & Hh & HD & Hj) Hf Hnb Hbad (Hctx & ms' & Hms') Hms.
  destruct (make_context_runs D (request_id_of req) clk self Hctx)
    as (ctx & Hc).
  assert (Hcl : classify result self = ([], self, Raised not_serializable)).
  { assert (Hd : json_dumps (envelope 200 result) = inl not_serializable).
    { unfold json_dumps. simpl. rewrite Hbad. reflexivity. }
    assert (Hrun : jsonify (envelope 200 result) 200 self
                   = ([], self, Raised not_serializable)).
    { unfold jsonify, bind. rewrite Hd. reflexivity. }
    unfold classify, respond_marked, respond_default.
    destruct result; try discriminate Hnb;
      try destruct (has_base64_marker _); exact Hrun. }
  eexists. split.
  - eapply invoke_failed; [ exact Hup | exact HD | | exact Hms ].
    rewrite Hh, (try_block_called f clk req D event ctx self Hj Hc), Hf, Hms'.
    rewrite Hcl. reflexivity.
  - reflexivity.
Qed.

Lemma enveloping_bind {A} (m : M RuntimeInterface A)
                       (k : A -> M RuntimeInterface response) :
  (forall a, enveloping (k a)) -> enveloping (bind m k).
Proof.
  intros Hk s r. unfold bind.
  destruct (m s) as [[t s'] [a | e | ]]; unfold outcome_of; simpl;
    try discriminate.
  specialize (Hk a s' r). destruct (k a s') as [[t' s''] o]. exact Hk.
Qed.

Lemma enveloping_try_except (m : M RuntimeInterface response) h :
  enveloping m -> (forall e, enveloping (h e)) -> enveloping (try_except m h).
Proof.
  intros Hm Hh s r. specialize (Hm s r). unfold try_except.
  destruct (m s) as [[t s'] [a | e | ]]; unfold outcome_of in *; simpl in *;
    try assumption.
  specialize (Hh e s' r). destruct (h e s') as [[t' s''] o]. exact Hh.
Qed.

Lemma enveloping_jsonify (code : Z) (body : pyval) :
  code = 200 \/ code = 500 \/ code = 503 ->
  enveloping (jsonify (envelope code body) code).
Proof.
  intros Hc s r. unfold jsonify, bind, json_dumps.
  destruct (json_ok (envelope code body)); unfold outcome_of; simpl;
    [ | discriminate ].
  intro H. injection H as <-. repeat split. exact Hc.
Qed.

Lemma enveloping_classify (result : pyval) : enveloping (classify result).
Proof.
  unfold classify, respond_binary, respond_marked, respond_default.
  destruct result; try destruct (has_base64_marker _);
    apply enveloping_jsonify; auto.
Qed.

(** X5.  Whatever the request, the clock and the state, a response that
    [invoke] returns is an envelope whose [status_code] is the status of
    the response, 200, 500 or 503, and whose [logs] is the empty list. *)
Theorem invoke_envelope (clk : clock) (req : request)
                        (self : RuntimeInterface) (r : response) :
  outcome_of (invoke clk req self) = Done r ->
  field "status_code" (json r) = PInt (status r)
  /\ field "logs" (json r) = PList []
  /\ (status r = 200 \/ status r = 500 \/ status r = 503).
Proof.
  revert self r. change (enveloping (invoke clk req)).
  unfold invoke.
  apply enveloping_bind; intro self.
  destruct (is_shutting_down self); [ apply enveloping_jsonify; auto | ].
  apply enveloping_bind; intro D.
  apply enveloping_bind; intros _.
  apply enveloping_try_except.
  - apply enveloping_bind; intro ev.
    apply enveloping_bind; intro ctx.
    apply enveloping_bind; intro result.
    apply enveloping_bind; intro ms.
    apply enveloping_bind; intros _.
    apply enveloping_classify.
  - intro e.
    apply enveloping_bind; intro ms.
    apply enveloping_bind; intros _.
    apply enveloping_jsonify; auto.
Qed.



(** X7.  Over any sequence of health checks, invokes and signals, the
    shutdown flag is the flag at the start or-ed with "a signal was
    handled", and the handler loaded is never replaced. *)
Theorem serve_flag_and_handler (calls : list call) (self : RuntimeInterface) :
  is_shutting_down (serve calls self)
  = is_shutting_down self || existsb is_signal calls
  /\ handler (serve calls self) = handler self.
Proof.
  revert self. induction calls as [ | c calls IH ]; intro self; simpl.
  - rewrite orb_false_r. split; reflexivity.
  - destruct (IH (serve_one c self)) as [Hf Hh].
    unfold serve in *. rewrite Hf, Hh.
    destruct c as [ | clk req | ]; simpl.
    + rewrite health_keeps. split; reflexivity.
    + rewrite invoke_keeps. split; reflexivity.
    + rewrite orb_true_r. split; reflexivity.
Qed.

(** *** Loading the handler *)

Lemma split_on_length (c : ascii) (s : string) :
  List.length (split_on c s) = Datatypes.S (occurrences c s).
Proof.
  induction s as [ | a s IH ]; simpl; [ reflexivity | ].
  destruct (Ascii.eqb a c); simpl; [ rewrite IH; reflexivity | ].
  destruct (split_on c s) as [ | piece pieces ]; simpl in *;
    [ discriminate IH | exact IH ].
Qed.

Lemma unpack2_wrong_length (parts : list string) :
  List.length parts <> 2%nat ->
  exists e, unpack2 parts = inl e /\ exn_type e = "ValueError".
Proof.
  intro H.
  destruct parts as [ | a [ | b [ | c rest ] ] ];
    try (eexists; split; reflexivity).
  exfalso. apply H. reflexivity.
Qed.

(** [init] up to the unpacking of the handler string. *)
Lemma init_unfold HANDLER cwd imp self :
  init HANDLER cwd imp self
  = try_except
      (log "info" "RIC initialization started"
           [("handler", PStr (handler_string_of HANDLER))] ;;
       names <- lift (unpack2 (split_on "." (handler_string_of HANDLER))) ;;
       let module_name := fst names in
       let function_name := snd names in
       let module_path := path_join cwd (module_name ++ ".py")%string in
       (if has_loader imp module_name module_path then ret tt
        else raise (Exn "ImportError"
                        ("Could not load module: " ++ module_name)%string [])) ;;
       emit (Import module_name) ;;
       module <- lift (exec_module imp module_name module_path) ;;
       found <- lift (getattr module_name module function_name) ;;
       match found with
       | Callable f =>
           modify (fun self => {| handler := Some f;
                                  is_shutting_down := is_shutting_down self |}) ;;
           log "info" "RIC initialization completed successfully"
               [("handler", PStr (handler_string_of HANDLER))] ;;
           ret true
       | Data _ =>
           raise (Exn "ValueError"
                      ("Handler " ++ handler_string_of HANDLER
                         ++ " is not callable")%string [])
       end)
      (fun e =>
         log "error" "Initialization failed" [("error", error_record e)] ;;
         raise system_exit) self.
Proof. reflexivity. Qed.

(** X8.  A handler string that does not hold exactly one dot (no dot, or
    a dotted module path) makes [init] log the [ValueError] of the
    unpacking and exit, before any module is looked for. *)
Theorem init_needs_one_dot
  (HANDLER : option string) (cwd : string) (imp : importer)
  (self : RuntimeInterface) :
  occurrences "." (handler_string_of HANDLER) <> 1%nat ->
  exists e,
    exn_type e = "ValueError"
    /\ init HANDLER cwd imp self
       = ([init_started HANDLER; init_failed e], self, Raised system_exit).
Proof.
  intro H.
  destruct (unpack2_wrong_length (split_on "." (handler_string_of HANDLER)))
    as (e & He & Hty).
  { rewrite split_on_length. intro Hl. apply H.
    injection Hl as Hl. exact Hl. }
  exists e. split; [ exact Hty | ].
  rewrite init_unfold. unfold try_except, bind, log, emit.
  rewrite He. reflexivity.
Qed.

(** X9.  When the handler string splits into a module name and a
    function name, the module at [cwd/module.py] executes, and it binds
    the function name to something callable, [init] stores that callable,
    logs its start and its completion, and returns [True]; a request that
    parses then reaches that callable. *)
Theorem init_loads_handler
  (HANDLER : option string) (cwd : string) (imp : importer)
  (self : RuntimeInterface)
  (module_name function_name : string) (ns : namespace) (f : handler_fn) :
  let module_path := path_join cwd (module_name ++ ".py")%string in
  let self' := {| handler := Some f;
                  is_shutting_down := is_shutting_down self |} in
  split_on "." (handler_string_of HANDLER) = [module_name; function_name] ->
  has_loader imp module_name module_path = true ->
  exec_module imp module_name module_path = inr ns ->
  getattr module_name ns function_name = inr (Callable f) ->
  init HANDLER cwd imp self
  = ([init_started HANDLER; Import module_name; init_completed HANDLER],
     self', Done true)
  /\ forall req D event,
       is_shutting_down self = false ->
       read_deadline (x_deadline_ms req) = inr D ->
       get_json req = inr event ->
       reaches_handler self' req f D event.
Proof.
  intros module_path self' Hs Hl He Hg. split.
  - rewrite init_unfold. unfold try_except, bind, log, emit.
    rewrite Hs. simpl. fold module_path. rewrite Hl. simpl.
    rewrite He. simpl. rewrite Hg. reflexivity.
  - intros req D event Hup HD Hj. repeat split; assumption.
Qed.

(** X10.  [init] never returns [False]: it either exits the process, or
    returns [True] with a handler stored; it never touches the shutdown
    flag. *)
Theorem init_true_or_exit
  (HANDLER : option string) (cwd : string) (imp : importer)
  (self : RuntimeInterface) :
  let run := init HANDLER cwd imp self in
  (outcome_of run = Raised system_exit
   \/ (outcome_of run = Done true
       /\ exists f, handler (state_of run) = Some f))
  /\ is_shutting_down (state_of run) = is_shutting_down self.
Proof.
  intro run. subst run. rewrite init_unfold.
  unfold try_except, bind, log, emit, state_of, outcome_of.
  destruct (unpack2 _) as [e | [m fn]]; simpl;
    [ split; [ left | ]; reflexivity | ].
  destruct (has_loader imp m _); simpl;
    [ | split; [ left | ]; reflexivity ].
  destruct (exec_module imp m _) as [e | ns]; simpl;
    [ split; [ left | ]; reflexivity | ].
  destruct (getattr m ns fn) as [e | [f | v]]; simpl;
    try (split; [ left | ]; reflexivity).
  split; [ right; split; [ reflexivity | exists f; reflexivity ] | reflexivity ].
Qed.

End PushMore.


Lemma unparsable_body_is_enveloped_witness :
  Push.invoke sample_clock unparsable_request sample_runtime
  = ([Push.started_record unparsable_request 0;
      Push.failed_record unparsable_request 500 bad_json],
     sample_runtime,
     Done {| Push.status := 500;
             Push.json := Push.envelope 500 (Push.failure_body bad_json) |}).
Proof.
  apply (unparsable_body_is_enveloped sample_runtime sample_clock
           unparsable_request 0 bad_json 500).
  - reflexivity.
  - reflexivity.
  - reflexivity.
  - vm_compute. reflexivity.
Defined.

Lemma binary_result_is_tagged_witness :
  exists t,
    Push.invoke sample_clock sample_request (runtime_with binary)
    = (t, runtime_with binary,
       Done {| Push.status := 200;
               Push.json :=
                 Push.envelope 200 (PDict [("base64", PBool true);
                                           ("data", PStr "aGk=")]) |}).
Proof.
  apply (binary_result_is_tagged (runtime_with binary) sample_clock
           sample_request binary 3000 sample_payload [Byte.x68; Byte.x69]).
  - repeat split.
  - reflexivity.
  - split.
    + intros _. exists 250. vm_compute. reflexivity.
    + exists 500. vm_compute. reflexivity.
Defined.

Lemma unserialisable_result_is_failure_witness :
  exists t,
    Push.invoke sample_clock sample_request (runtime_with nested_binary)
    = (t, runtime_with nested_binary,
       Done {| Push.status := 500;
               Push.json :=
                 Push.envelope 500 (Push.failure_body not_serializable) |})
    /\ List.length (handler_calls t) = 1%nat.
Proof.
  apply (unserialisable_result_is_failure (runtime_with nested_binary)
           sample_clock sample_request nested_binary 3000 sample_payload
           (PList [PBytes [Byte.x68; Byte.x69]]) 500).
  - repeat split.
  - reflexivity.
  - reflexivity.
  - reflexivity.
  - split.
    + intros _. exists 250. vm_compute. reflexivity.
    + exists 500. vm_compute. reflexivity.
  - vm_compute. reflexivity.
Defined.

Lemma invoke_envelope_witness :
  field "status_code"
        (Push.envelope 200 sample_payload) = PInt 200
  /\ field "logs" (Push.envelope 200 sample_payload) = PList []
  /\ (200 = 200 \/ 200 = 500 \/ 200 = 503).
Proof.
  apply (invoke_envelope sample_clock sample_request sample_runtime
           {| Push.status := 200;
              Push.json := Push.envelope 200 sample_payload |}).
  vm_compute. reflexivity.
Defined.


Lemma init_needs_one_dot_witness :
  exists e,
    exn_type e = "ValueError"
    /\ Push.init (Some "pkg.index.handler") "/var/task" sample_importer
                 Push.fresh
       = ([Push.init_started (Some "pkg.index.handler"); Push.init_failed e],
          Push.fresh, Raised system_exit).
Proof.
  apply (init_needs_one_dot (Some "pkg.index.handler") "/var/task"
           sample_importer Push.fresh).
  vm_compute. discriminate.
Defined.

Lemma init_loads_handler_witness :
  Push.init None "/var/task" sample_importer Push.fresh
  = ([Push.init_started None; Import "index"; Push.init_completed None],
     sample_runtime, Done true).
Proof.
  apply (init_loads_handler None "/var/task" sample_importer Push.fresh
           "index" "handler"
           [("VERSION", Data (PInt 1)); ("handler", Callable Push.echo)]
           Push.echo).
  - reflexivity.
  - reflexivity.
  - reflexivity.
  - reflexivity.
Defined.

(** ** The poll transport: the turns of the loop *)

Section PollMore.
Import Poll.
Variable env : environ.
Variable handler : handler_fn.

(** X11.  When the long poll fails, the turn writes one line to the error
    stream and sleeps one second; the handler is not called and nothing
    is posted. *)
Theorem failed_fetch_sleeps_one_second (t : turn) (e : exn) :
  next t = inl e ->
  serve_turn env handler t tt
  = ([HttpGet NextInvocation (Some e);
      Stderr [T "Runtime error: ";
              T ("Failed to get next invocation: " ++ exn_msg e)%string];
      Sleep 1%float], tt, Done tt).
Proof.
  intro H. unfold serve_turn, get_next_invocation. rewrite H. reflexivity.
Qed.


(** X13.  When the handler returns a serialisable result and the post
    goes through, the turn is: fetch, call, one post of the result itself
    to the response endpoint of the request id; no error post, no
    sleep. *)
Theorem result_is_posted (t : turn) (inv : invocation) (result : pyval) :
  next t = inr inv ->
  handler (payload inv) (make_context env inv) = Return result ->
  json_ok result = true ->
  response_post t = None ->
  serve_turn env handler t tt
  = ([HttpGet NextInvocation None;
      Stdout [T "Received invocation: "; V (val_of (requestId inv))];
      HandlerCall (payload inv) (make_context env inv);
      HttpPost (InvocationResponse (str_of (requestId inv))) result None;
      Stdout [T "Response posted for: "; V (val_of (requestId inv))]],
     tt, Done tt).
Proof.
  intros Hn Hh Hok Hw. rewrite (serve_turn_run env handler t inv Hn). cbv zeta.
  rewrite Hh, Hw.
  unfold post_response, try_except, bind, json_dumps. rewrite Hok.
  reflexivity.
Qed.

(** What a turn leaves behind, case by case. *)
Lemma serve_turn_cases (t : turn) :
  exists tr,
    serve_turn env handler t tt = (tr, tt, Done tt)
    /\ (List.length (delivered tr) <= 1)%nat
    /\ match next t with
       | inl _ =>
           posts tr = [] /\ handler_calls tr = []
           /\ Stream.sleeps tr = [1%float]
       | inr inv =>
           (1 <= List.length (posts tr) <= 2)%nat
           /\ forallb (sent_about (str_of (requestId inv))) (posts tr) = true
           /\ handler_calls tr = [(payload inv, make_context env inv)]
           /\ Stream.sleeps tr = []
       end.
Proof.
  destruct (next t) as [e | inv] eqn:Hn.
  - eexists. split; [ apply failed_fetch_sleeps_one_second; exact Hn | ].
    simpl. repeat split. lia.
  - eexists. split; [ apply serve_turn_run; exact Hn | ].
    cbv zeta. unfold post_response, try_except, bind, json_dumps,
      error_post_trace, trace_of, outcome_of.
    assert (Hs : String.eqb (str_of (requestId inv)) (str_of (requestId inv))
                 = true) by apply String.eqb_refl.
    destruct (handler (payload inv) (make_context env inv))
      as [result | error]; simpl.
    + destruct (json_ok result); simpl.
      * destruct (response_post t); simpl;
          [ destruct (error_post t); simpl | ];
          rewrite ?Hs; repeat split; simpl; lia.
      * destruct (error_post t); simpl;
          rewrite ?Hs; repeat split; simpl; lia.
    + destruct (error_post t); simpl;
        rewrite ?Hs; repeat split; simpl; lia.
Qed.

(** X14.  In one turn at most one post goes through: an invocation never
    gets both a delivered response and a delivered error.  A turn that
    fetched an invocation makes one or two posts, all about its request
    id; a turn that did not, none. *)
Theorem at_most_one_delivery (t : turn) :
  let tr := trace_of (serve_turn env handler t tt) in
  (List.length (delivered tr) <= 1)%nat
  /\ match next t with
     | inl _ => posts tr = []
     | inr inv =>
         (1 <= List.length (posts tr) <= 2)%nat
         /\ forallb (sent_about (str_of (requestId inv))) (posts tr) = true
     end.
Proof.
  intro tr. subst tr.
  destruct (serve_turn_cases t) as (tr & Hrun & Hd & Hc).
  rewrite Hrun. unfold trace_of. simpl. split; [ exact Hd | ].
  destruct (next t); [ apply Hc | split; apply Hc ].
Qed.



End PollMore.

Lemma failed_fetch_sleeps_one_second_witness :
  Poll.serve_turn sample_env Push.echo failed_fetch tt
  = ([HttpGet NextInvocation (Some connection_reset);
      Stderr [T "Runtime error: ";
              T "Failed to get next invocation: <urlopen error [Errno 104] Connection reset by peer>"];
      Sleep 1%float], tt, Done tt).
Proof.
  apply (failed_fetch_sleeps_one_second sample_env Push.echo failed_fetch
           connection_reset).
  reflexivity.
Defined.


Lemma result_is_posted_witness :
  Poll.serve_turn sample_env Push.echo accepted_posts tt
  = ([HttpGet NextInvocation None;
      Stdout [T "Received invocation: "; V (PStr "r-1")];
      HandlerCall sample_payload
                  (Poll.make_context sample_env sample_invocation);
      HttpPost (InvocationResponse "r-1") sample_payload None;
      Stdout [T "Response posted for: "; V (PStr "r-1")]],
     tt, Done tt).
Proof.
  apply (result_is_posted sample_env Push.echo accepted_posts
           sample_invocation sample_payload).
  - reflexivity.
  - reflexivity.
  - reflexivity.
  - reflexivity.
Defined.

(** ** Loading the handler of the bootstrap scripts *)

Lemma load_handler_run {S : Type} (imported : exn + namespace) (s : S) :
  load_handler imported s
  = match imported with
    | inl e =>
        ([Stderr [T "Failed to load handler: "; T (exn_msg e)]], s,
         Raised system_exit)
    | inr ns =>
        match getattr "lambda_function" ns "handler" with
        | inl e =>
            ([Stderr [T "Failed to load handler: "; T (exn_msg e)]], s,
             Raised system_exit)
        | inr (Data _) =>
            ([Stderr [T "Failed to load handler: ";
                      T "Handler function not found in lambda_function.py"]],
             s, Raised system_exit)
        | inr (Callable f) => ([], s, Done f)
        end
    end.
Proof.
  unfold load_handler, try_except, bind.
  destruct imported as [e | ns]; [ reflexivity | ]. simpl.
  destruct (getattr "lambda_function" ns "handler") as [e | [f | v]];
    reflexivity.
Qed.

(** X16.  Both bootstrap scripts need a callable [handler] in
    [lambda_function]: when the import fails, or the name is missing or
    bound to something that is not callable, each writes one line to the
    error stream and exits, before any request to the Runtime API and any
    connection attempt. *)
Theorem bootstrap_needs_callable_handler
  (env : environ) (imported : exn + namespace)
  (polls : list Poll.turn) (script : list Stream.attempt)
  (self : Stream.WebSocketRuntime) :
  (forall ns f, imported = inr ns ->
                getattr "lambda_function" ns "handler" <> inr (Callable f)) ->
  exists msg,
    Poll.program env imported polls tt
    = ([Stderr [T "Failed to load handler: "; T msg]], tt, Raised system_exit)
    /\ stream_program env imported polls script self
       = ([Stderr [T "Failed to load handler: "; T msg]], self,
          Raised system_exit).
Proof.
  intro H. unfold Poll.program, stream_program, bind.
  rewrite !load_handler_run.
  destruct imported as [e | ns]; [ eexists; split; reflexivity | ].
  specialize (H ns).
  destruct (getattr "lambda_function" ns "handler") as [e | [f | v]];
    try (eexists; split; reflexivity).
  exfalso. apply (H f); reflexivity.
Qed.

Lemma bootstrap_needs_callable_handler_witness :
  exists msg,
    Poll.program sample_env no_handler_module [accepted_posts] tt
    = ([Stderr [T "Failed to load handler: "; T msg]], tt, Raised system_exit)
    /\ stream_program sample_env no_handler_module [accepted_posts]
                      [Stream.accepted closed_session] Stream.init
       = ([Stderr [T "Failed to load handler: "; T msg]], Stream.init,
          Raised system_exit).
Proof.
  apply (bootstrap_needs_callable_handler sample_env no_handler_module
           [accepted_posts] [Stream.accepted closed_session] Stream.init).
  intros ns f Hns. injection Hns as <-. vm_compute. discriminate.
Defined.

(** ** The stream transport: frames and sessions *)

Section StreamMore.
Import Stream.
Variable env : environ.
Variable handler : handler_fn.
Variable polls : list Poll.turn.

Lemma reconnects_app (a b : list event) :
  reconnects (a ++ b) = reconnects a ++ reconnects b.
Proof. unfold reconnects. apply filter_app. Qed.

Lemma harmless_ret {A} (a : A) : harmless (ret a).
Proof. intro s. repeat split. discriminate. Qed.

Lemma harmless_raise {A} (e : exn) : harmless (@raise _ A e).
Proof. intro s. repeat split. discriminate. Qed.

Lemma harmless_lift {A} (r : exn + A) : harmless (lift r).
Proof. destruct r; intro s; repeat split; discriminate. Qed.

Lemma harmless_emit (ev : event) : reconnects [ev] = [] -> harmless (emit ev).
Proof. intros H s. repeat split; [ exact H | discriminate ]. Qed.

Lemma harmless_bind {A B} (m : M WebSocketRuntime A)
                    (k : A -> M WebSocketRuntime B) :
  harmless m -> (forall a, harmless (k a)) -> harmless (bind m k).
Proof.
  intros Hm Hk s. destruct (Hm s) as (Hs & Hr & Hp). unfold bind.
  destruct (m s) as [[t s'] [a | e | ]];
    unfold trace_of, state_of, outcome_of in *; simpl in *; subst.
  - destruct (Hk a s) as (Hs' & Hr' & Hp'). destruct (k a s) as [[t' s''] r].
    unfold trace_of, state_of, outcome_of in *; simpl in *.
    rewrite reconnects_app, Hr, Hr'. repeat split; assumption.
  - repeat split; [ assumption | discriminate ].
  - exfalso. apply Hp. reflexivity.
Qed.

Lemma harmless_try_except {A} (m : M WebSocketRuntime A) h :
  harmless m -> (forall e, harmless (h e)) -> harmless (try_except m h).
Proof.
  intros Hm Hh s. destruct (Hm s) as (Hs & Hr & Hp). unfold try_except.
  destruct (m s) as [[t s'] [a | e | ]];
    unfold trace_of, state_of, outcome_of in *; simpl in *; subst.
  - repeat split; [ assumption | discriminate ].
  - destruct (Hh e s) as (Hs' & Hr' & Hp'). destruct (h e s) as [[t' s''] r].
    unfold trace_of, state_of, outcome_of in *; simpl in *.
    rewrite reconnects_app, Hr, Hr'. repeat split; assumption.
  - exfalso. apply Hp. reflexivity.
Qed.

Lemma send_harmless message w : harmless (send message w).
Proof.
  intro s. rewrite send_run. unfold send_trace, trace_of, state_of. simpl.
  repeat split; [ | discriminate ].
  destruct (websocket s && is_connected s); [ | reflexivity ].
  destruct (json_dumps message); [ reflexivity | ].
  destruct w; reflexivity.
Qed.

Ltac harmless :=
  repeat first
    [ apply harmless_ret | apply harmless_raise | apply harmless_lift
    | apply harmless_emit; reflexivity
    | apply send_harmless
    | apply harmless_bind; [ | intro ]
    | apply harmless_try_except; [ | intro ]
    | match goal with
      | |- harmless (if ?b then _ else _) => destruct b
      | |- harmless (match ?x with _ => _ end) => destruct x
      end ].

Lemma handle_message_harmless message w :
  harmless (handle_message env handler message w).
Proof.
  unfold handle_message, handle_invocation, call_handler. harmless.
Qed.

Lemma on_frame_run (f : inbound) (self : WebSocketRuntime) :
  exists t,
    on_frame env handler f self = (t, self, Done tt) /\ reconnects t = [].
Proof.
  unfold on_frame. destruct (loads f) as [e | data].
  - eexists. split; reflexivity.
  - destruct (handle_message_harmless data (wire f) self) as (Hs & Hr & Hp).
    unfold try_except.
    destruct (handle_message env handler data (wire f) self)
      as [[t s'] [[] | e | ]];
      unfold trace_of, state_of, outcome_of in *; simpl in *; subst.
    + eexists. split; [ reflexivity | exact Hr ].
    + eexists. split; [ reflexivity | ].
      rewrite reconnects_app, Hr. reflexivity.
    + exfalso. apply Hp. reflexivity.
Qed.

(** X17.  No inbound frame, whatever it holds (text that is no JSON, JSON
    that is no object, an unknown type, an invocation whose handler
    raises, with a socket that works or not) ends the message loop,
    writes to the runtime object, or starts anything of a reconnection:
    the loop handles the frames one after the other and comes out as it
    went in. *)
Theorem frames_never_disturb (fs : list inbound) (self : WebSocketRuntime) :
  exists t,
    on_frames env handler fs self = (t, self, Done tt)
    /\ reconnects t = [].
Proof.
  induction fs as [ | f fs IH ].
  - exists []. split; reflexivity.
  - destruct (on_frame_run f self) as (t1 & H1 & R1).
    destruct IH as (t2 & H2 & R2).
    exists (t1 ++ t2). split.
    + simpl.
      rewrite (bind_done (on_frame env handler f)
                         (fun _ => on_frames env handler fs)
                         self t1 self tt H1).
      rewrite H2. reflexivity.
    + rewrite reconnects_app, R1, R2. reflexivity.
Qed.

(** X18.  A [ping] frame is answered with one [pong] frame through
    [send], without a handler call; on a connected socket that works,
    exactly the frame [{type: pong}] goes out. *)
Theorem ping_is_answered d (w : option exn) (self : WebSocketRuntime) :
  lookup "type" d = PStr "ping" ->
  on_frame env handler {| loads := inr (PDict d); wire := w |} self
  = (send_trace pong w self, self, Done tt)
  /\ handler_calls (send_trace pong w self) = []
  /\ (websocket self && is_connected self = true -> w = None ->
      send_trace pong w self = [WsSend pong None]).
Proof.
  intro Hty. split; [ | split ].
  - unfold on_frame. simpl. apply try_done.
    unfold handle_message.
    erewrite bind_done by (simpl; reflexivity).
    rewrite Hty. simpl. rewrite send_run. reflexivity.
  - unfold send_trace.
    destruct (websocket self && is_connected self); [ | reflexivity ].
    simpl. destruct w; reflexivity.
  - intros Hc Hw. unfold send_trace. rewrite Hc, Hw. reflexivity.
Qed.

(** X19.  A frame that is no JSON text, a JSON value that is no object,
    and an object whose [type] is neither [invocation] nor [ping] (an
    [error_response], an unknown or a missing type) each leave exactly
    one line on the error stream: nothing is sent and no handler is
    called. *)
Theorem other_frames_are_only_logged (f : inbound) (self : WebSocketRuntime) :
  match loads f with
  | inl _ => True
  | inr (PDict d) =>
      is_str (lookup "type" d) "invocation" = false
      /\ is_str (lookup "type" d) "ping" = false
  | inr _ => True
  end ->
  exists line, on_frame env handler f self = ([Stderr line], self, Done tt).
Proof.
  intro H. unfold on_frame.
  destruct (loads f) as [e | data]; [ eexists; reflexivity | ].
  destruct data; try (eexists; reflexivity).
  destruct H as (Hi & Hp).
  unfold handle_message, try_except, bind. simpl. rewrite Hi, Hp.
  destruct (is_str (lookup "type" entries) "error_response").
  - unfold py_get_default.
    destruct (find _ entries); eexists; reflexivity.
  - eexists; reflexivity.
Qed.


Lemma response_frame_ok (rid result : pyval) :
  json_ok rid = true -> json_ok result = true ->
  json_dumps (response_frame env rid result)
  = inr (response_frame env rid result).
Proof.
  intros H1 H2. unfold json_dumps. simpl. rewrite H1, H2. reflexivity.
Qed.


(** X21.  When the handler returns a serialisable result on a working
    connection, exactly one frame goes out: a [response] whose
    [request_id] is the one of the invocation and whose [payload] is the
    result itself. *)
Theorem response_echoes_request_id d (self : WebSocketRuntime) (result : pyval) :
  let request_id := lookup "request_id" d in
  let context := make_context env request_id
                   (lookup "invoked_function_arn" d) (lookup "trace_id" d) in
  let run := handle_invocation env handler (PDict d) None self in
  websocket self && is_connected self = true ->
  json_ok request_id = true ->
  json_ok result = true ->
  handler (lookup "payload" d) context = Return result ->
  exists frame,
    ws_sends (trace_of run) = [(frame, None)]
    /\ field "type" frame = PStr "response"
    /\ field "request_id" frame = request_id
    /\ field "payload" frame = result
    /\ state_of run = self
    /\ outcome_of run = Done tt.
Proof.
  intros request_id context run Hc Hrid Hok Hh. subst run.
  rewrite handle_invocation_run. fold request_id. fold context.
  rewrite Hh. unfold send_trace. rewrite Hc.
  rewrite (response_frame_ok request_id result Hrid Hok).
  exists (response_frame env request_id result). repeat split.
Qed.

(** *** Sessions *)

Lemma try_not_raised {S A} (m : M S A) (h : exn -> M S A) (s : S) :
  (forall e, outcome_of (m s) <> Raised e) -> try_except m h s = m s.
Proof.
  intro H. unfold try_except.
  destruct (m s) as [[t s'] [a | e | ]]; try reflexivity.
  exfalso. apply (H e). reflexivity.
Qed.

(** An opened connection: the three lines of [connect], the register
    frame, then the message loop. *)
Lemma connect_opened (sess : session) (rest : list attempt)
                     (s : WebSocketRuntime) :
  let loop := message_loop env handler polls sess
                (connect env handler polls rest) (just_opened s) in
  connect env handler polls (accepted sess :: rest) s
  = ([Stdout [T "Connecting to WebSocket: "; T (ws_url env)];
      WsConnect None;
      Stdout [T "WebSocket connected"]]
       ++ send_trace (register_frame env) (register_wire sess) (just_opened s)
       ++ trace_of loop,
     state_of loop, outcome_of loop).
Proof.
  intro loop.
  assert (Hloop : forall e, outcome_of loop <> Raised e).
  { intro e. apply (message_loop_steady env handler polls sess _
                      (connect_steady env handler polls rest)). }
  assert (Hbody :
    (emit (WsConnect None) ;;
     modify (set_websocket true) ;;
     modify (set_is_connected true) ;;
     modify (set_reconnect_attempts 0) ;;
     emit (Stdout [T "WebSocket connected"]) ;;
     register env (register_wire sess) ;;
     message_loop env handler polls sess (connect env handler polls rest)) s
    = ([WsConnect None; Stdout [T "WebSocket connected"]]
         ++ send_trace (register_frame env) (register_wire sess) (just_opened s)
         ++ trace_of loop,
       state_of loop, outcome_of loop)).
  { unfold bind at 1. unfold emit at 1. cbv iota beta.
    unfold bind at 1. unfold modify at 1. cbv iota beta.
    unfold bind at 1. unfold modify at 1. cbv iota beta.
    unfold bind at 1. unfold modify at 1. cbv iota beta.
    unfold bind at 1. unfold emit at 1. cbv iota beta.
    unfold bind at 1. unfold register. rewrite send_run. cbv iota beta.
    fold (just_opened s). fold (register_frame env). fold loop.
    destruct loop as [[t s'] o]. reflexivity. }
  simpl connect.
  unfold bind at 1. unfold emit at 1. cbv iota beta.
  unfold bind at 1. unfold signalled, ret. cbv iota beta.
  rewrite try_not_raised; rewrite Hbody; [ reflexivity | exact Hloop ].
Qed.

Lemma handle_reconnect_retry (k : M WebSocketRuntime unit)
                             (s : WebSocketRuntime) :
  (reconnect_attempts s <? max_reconnect_attempts s)
    && negb (should_stop s) = true ->
  let s1 := set_reconnect_attempts (reconnect_attempts s + 1) s in
  trace_of (handle_reconnect env handler polls k s)
  = [Stdout [T "Attempting to reconnect ("; N (reconnect_attempts s + 1);
             T "/"; N (max_reconnect_attempts s); T ") in ";
             F (reconnect_delay s); T "s"];
     Sleep (reconnect_delay s)] ++ trace_of (k s1).
Proof.
  intros H s1. unfold handle_reconnect, bind, get, modify, emit. rewrite H.
  fold s1. simpl.
  destruct (k s1) as [[t s'] [[] | e | ]]; unfold trace_of; simpl;
    rewrite ?app_nil_r; reflexivity.
Qed.

(** X22.  A connection that opens sets the attempt count back to 0: when
    the opened connection drops (and no shutdown was asked for), the
    transport sleeps [reconnect_delay] and connects again as attempt 1,
    whatever the count was before, used up or not.  The limit of ten is
    on failures in a row only. *)
Theorem reopened_connection_resets_attempts
  (sess : session) (rest : list attempt) (s : WebSocketRuntime) :
  session_signal sess = None ->
  ends sess = ConnectionClosed ->
  should_stop s = false ->
  0 < max_reconnect_attempts s ->
  reconnects (trace_of (connect env handler polls (accepted sess :: rest) s))
  = WsConnect None :: Sleep (reconnect_delay s)
    :: reconnects (trace_of (connect env handler polls rest (dropped_once s))).
Proof.
  intros Hsig Hend Hstop Hmax.
  rewrite connect_opened. cbv zeta. unfold trace_of at 1. simpl.
  rewrite reconnects_app.
  assert (Hreg : reconnects (send_trace (register_frame env)
                               (register_wire sess) (just_opened s)) = []).
  { destruct (send_harmless (register_frame env) (register_wire sess)
                (just_opened s)) as (_ & Hr & _).
    rewrite send_run in Hr. exact Hr. }
  rewrite Hreg. simpl.
  destruct (frames_never_disturb (frames sess) (just_opened s))
    as (tf & Hf & Rf).
  unfold message_loop.
  rewrite (bind_done _ _ (just_opened s) tf (just_opened s) tt Hf).
  unfold trace_of at 1. simpl. rewrite reconnects_app, Rf. simpl.
  rewrite Hsig, Hend.
  unfold signalled.
  rewrite (bind_done (ret tt) _ (just_opened s) [] (just_opened s) tt eq_refl).
  unfold trace_of at 1. simpl.
  rewrite (bind_done (emit (Stdout [T "WebSocket connection closed"])) _
             (just_opened s) [Stdout [T "WebSocket connection closed"]]
             (just_opened s) tt eq_refl).
  unfold trace_of at 1. simpl.
  rewrite (bind_done (modify (set_is_connected false)) _
             (just_opened s) [] (set_is_connected false (just_opened s)) tt
             eq_refl).
  unfold trace_of at 1. simpl.
  rewrite handle_reconnect_retry.
  - simpl. reflexivity.
  - simpl. rewrite Hstop.
    replace (0 <? max_reconnect_attempts s) with true
      by (symmetry; apply Z.ltb_lt; exact Hmax).
    reflexivity.
Qed.

Lemma register_frame_ok :
  json_dumps (register_frame env) = inr (register_frame env).
Proof.
  unfold json_dumps, register_frame. simpl.
  destruct (AWS_LAMBDA_FUNCTION_NAME env), (LAMBDAH_INSTANCE_ID env);
    reflexivity.
Qed.

(** X23.  On every connection that opens, the first frame handed to the
    socket is the [register] frame, before any inbound frame is handled;
    it names the runtime [python311] and the function version, [1] when
    the environment gives none. *)
Theorem register_is_sent_first
  (sess : session) (rest : list attempt) (s : WebSocketRuntime) :
  (exists more,
     ws_sends (trace_of (connect env handler polls (accepted sess :: rest) s))
     = (register_frame env, register_wire sess) :: more)
  /\ field "type" (register_frame env) = PStr "register"
  /\ field "runtime" (register_frame env) = PStr "python311"
  /\ field "version" (register_frame env)
     = PStr (match AWS_LAMBDA_FUNCTION_VERSION env with
             | Some v => v
             | None => "1"
             end).
Proof.
  split; [ | repeat split ].
  rewrite connect_opened. cbv zeta. unfold trace_of at 1. simpl.
  unfold send_trace. simpl. rewrite register_frame_ok.
  simpl. eexists. reflexivity.
Qed.

(** X24.  Once a shutdown signal has been handled, a connection attempt
    that fails is not followed by a sleep or a new attempt, whatever the
    attempt count: [handle_reconnect] takes its other branch, prints that
    the attempts are used up and imports the poll module; the rest of the
    script is never looked at. *)
Theorem signal_stops_reconnecting
  (signum : Z) (e : exn) (rest : list attempt) (s : WebSocketRuntime) :
  connect env handler polls
    ({| attempt_signal := Some signum; opened := inl e |} :: rest) s
  = ([Stdout [T "Connecting to WebSocket: "; T (ws_url env)];
      Stdout [T "Received signal "; N signum; T ", shutting down..."]]
       ++ (if websocket s then [WsClose] else [])
       ++ [Stdout [T "WebSocket runtime shutdown complete"];
           WsConnect (Some e);
           Stderr [T "WebSocket connection failed: "; T (exn_msg e)];
           Stderr [T "Max reconnection attempts reached, falling back to HTTP"];
           Stdout [T "Falling back to HTTP runtime..."];
           Import "bootstrap"],
     set_is_connected false (set_should_stop true s), Done tt).
Proof.
  simpl connect.
  unfold signalled, shutdown, handle_reconnect, fallback_to_http, embed.
  unfold bind, try_except, emit, modify, get, ret, raise.
  unfold set_is_connected, set_should_stop.
  destruct (websocket s) eqn:Hw;
    cbn [reconnect_attempts max_reconnect_attempts should_stop websocket
         is_connected reconnect_delay negb];
    rewrite ?Hw; rewrite andb_false_r; reflexivity.
Qed.

(** X25.  When the iteration over the socket stops without an exception
    (the connection was closed normally), [connect] returns: nothing is
    slept, no new attempt is made, nothing is imported, and the runtime
    object still says it is connected. *)
Theorem normal_close_ends_the_run
  (sess : session) (rest : list attempt) (s : WebSocketRuntime) :
  ends sess = Exhausted ->
  exists t s',
    connect env handler polls (accepted sess :: rest) s = (t, s', Done tt)
    /\ reconnects t = [WsConnect None]
    /\ is_connected s' = true.
Proof.
  intro Hend.
  destruct (frames_never_disturb (frames sess) (just_opened s))
    as (tf & Hf & Rf).
  assert (Hreg : reconnects (send_trace (register_frame env)
                               (register_wire sess) (just_opened s)) = []).
  { destruct (send_harmless (register_frame env) (register_wire sess)
                (just_opened s)) as (_ & Hr & _).
    rewrite send_run in Hr. exact Hr. }
  assert (Hsig : exists ts s2,
             signalled (session_signal sess) (just_opened s) = (ts, s2, Done tt)
             /\ reconnects ts = [] /\ is_connected s2 = true).
  { unfold signalled. destruct (session_signal sess) as [n | ].
    - eexists. eexists. split; [ reflexivity | split; reflexivity ].
    - eexists. eexists. split; [ reflexivity | split; reflexivity ]. }
  destruct Hsig as (ts & s2 & Hs & Rs & Hc).
  assert (Hloop : message_loop env handler polls sess
                    (connect env handler polls rest) (just_opened s)
                  = (tf ++ ts, s2, Done tt)).
  { unfold message_loop.
    rewrite (bind_done _ _ (just_opened s) tf (just_opened s) tt Hf).
    rewrite (bind_done _ _ (just_opened s) ts s2 tt Hs).
    rewrite Hend. unfold trace_of, state_of, outcome_of. simpl.
    rewrite app_nil_r. reflexivity. }
  eexists. eexists. split; [ | split ].
  - rewrite connect_opened. cbv zeta. rewrite Hloop. reflexivity.
  - unfold trace_of. simpl.
    rewrite !reconnects_app, Hreg, Rf, Rs. reflexivity.
  - exact Hc.
Qed.

End StreamMore.

Lemma ping_is_answered_witness :
  Stream.on_frame sample_env Push.echo
    {| Stream.loads := inr (PDict ping_frame); Stream.wire := None |} connected
  = ([WsSend Stream.pong None], connected, Done tt).
Proof.
  apply (ping_is_answered sample_env Push.echo ping_frame None connected).
  reflexivity.
Defined.

Lemma other_frames_are_only_logged_witness :
  exists line,
    Stream.on_frame sample_env Push.echo unknown_frame connected
    = ([Stderr line], connected, Done tt).
Proof.
  apply (other_frames_are_only_logged sample_env Push.echo unknown_frame
           connected).
  split; reflexivity.
Defined.


Lemma response_echoes_request_id_witness :
  exists frame,
    Stream.ws_sends
      (trace_of (Stream.handle_invocation sample_env Push.echo
                   (PDict sample_frame) None connected))
    = [(frame, None)]
    /\ field "type" frame = PStr "response"
    /\ field "request_id" frame = PStr "r-1"
    /\ field "payload" frame = sample_payload
    /\ state_of (Stream.handle_invocation sample_env Push.echo
                   (PDict sample_frame) None connected) = connected
    /\ outcome_of (Stream.handle_invocation sample_env Push.echo
                     (PDict sample_frame) None connected) = Done tt.
Proof.
  apply (response_echoes_request_id sample_env Push.echo sample_frame
           connected sample_payload).
  - reflexivity.
  - reflexivity.
  - reflexivity.
  - reflexivity.
Defined.

Lemma reopened_connection_resets_attempts_witness :
  Stream.reconnects
    (trace_of (Stream.connect sample_env Push.echo []
                 [Stream.accepted dropped_session] exhausted))
  = [WsConnect None; Sleep 1.0%float].
Proof.
  apply (reopened_connection_resets_attempts sample_env Push.echo []
           dropped_session [] exhausted).
  - reflexivity.
  - reflexivity.
  - reflexivity.
  - reflexivity.
Defined.

Lemma normal_close_ends_the_run_witness :
  exists t s',
    Stream.connect sample_env Push.echo []
      [Stream.accepted closed_session] Stream.init
    = (t, s', Done tt)
    /\ Stream.reconnects t = [WsConnect None]
    /\ Stream.is_connected s' = true.
Proof.
  apply (normal_close_ends_the_run sample_env Push.echo [] closed_session []
           Stream.init).
  reflexivity.
Defined.

(** ** The sample function *)

(** X26.  The sample function of [test_function.py] answers with status
    200 and echoes its event; its [timestamp] is always [unknown], because
    none of the three transports puts a [timestamp] in the context it
    builds.  Called with a context that is no dict it raises
    [AttributeError]. *)
Theorem sample_function_sees_no_timestamp
  (env : environ) (payload : pyval) :
  let answer :=
    Return (PDict [("statusCode", PInt 200);
                   ("body",
                    PDict [("message", PStr "Hello from Lambda@Home Python!");
                           ("event", payload);
                           ("timestamp", PStr "unknown")])]) in
  (forall remaining request_id,
     TestFunction.handler payload
       (PDict [("deadlineMs", PInt remaining);
               ("requestId", PStr request_id)]) = answer)
  /\ (forall inv,
        TestFunction.handler payload (Poll.make_context env inv) = answer)
  /\ (forall request_id arn trace_id,
        TestFunction.handler payload
          (Stream.make_context env request_id arn trace_id) = answer)
  /\ (forall context,
        is_dict context = false ->
        exists e, TestFunction.handler payload context = Raise e
                  /\ exn_type e = "AttributeError").
Proof.
  intro answer. repeat split.
  intros context H.
  destruct context; try discriminate H; eexists; split; reflexivity.
Qed.
